(** * Conversation state of the chat page

    A shallow embedding of the [HomePage] component: the React state it
    keeps (session list, active session, message history, composer) and
    the event handlers that change it while talking to the assistant API.

    - JavaScript values that the handlers test dynamically (identifiers:
      truthiness, [typeof], [===], template-literal conversion) are kept
      as [jsval]; sessions and messages are records over them.
    - The handlers are [async] functions with [try]/[catch]/[finally]; they
      are written in a small state-and-exception monad over a [World]
      holding the React state, the server, the trace of requests and the
      console.
    - A handler is a closure of one render: what it reads from the state
      is the snapshot [c] of that render, what it writes goes to the
      current state.  Handlers run one at a time, each to its end.

    Limits of the model: numbers are integers (identifiers and HTTP status
    codes; no [NaN], no fractions, and printed digit by digit, as
    JavaScript does below 1e21); a string is the UTF-8 encoding of the
    JavaScript string (no lone surrogates); a 2xx body either is not JSON
    or decodes to the payload of its endpoint. *)

From Stdlib Require Import ZArith String Ascii List Bool Lia DecimalString.
Import ListNotations.
Local Open Scope string_scope.
Local Open Scope list_scope.

(** ** JavaScript values *)

Inductive jsval : Type :=
| JUndefined
| JNull
| JBool (b : bool)
| JNum (n : Z)
| JStr (s : string).

(** [typeof v] *)
Definition typeof (v : jsval) : string :=
  match v with
  | JUndefined => "undefined"
  | JNull => "object"
  | JBool _ => "boolean"
  | JNum _ => "number"
  | JStr _ => "string"
  end.

(** Truthiness, as tested by [!v] and [v && ...]. *)
Definition truthy (v : jsval) : bool :=
  match v with
  | JUndefined | JNull => false
  | JBool b => b
  | JNum n => negb (n =? 0)%Z
  | JStr s => negb (s =? "")
  end.

(** [a === b] *)
Definition strict_eq (a b : jsval) : bool :=
  match a, b with
  | JUndefined, JUndefined => true
  | JNull, JNull => true
  | JBool x, JBool y => Bool.eqb x y
  | JNum x, JNum y => (x =? y)%Z
  | JStr x, JStr y => (x =? y)
  | _, _ => false
  end.

(** A number as a template literal prints it; integers only, digit by
    digit (JavaScript turns to the exponent form from 1e21 on). *)
Definition num_to_string (n : Z) : string :=
  NilZero.string_of_int (Z.to_int n).

(** The conversion a template literal [`${v}`] applies. *)
Definition to_string (v : jsval) : string :=
  match v with
  | JUndefined => "undefined"
  | JNull => "null"
  | JBool true => "true"
  | JBool false => "false"
  | JNum n => num_to_string n
  | JStr s => s
  end.

(** A parameter with a default value, [f(arg = dflt)]: the default is
    taken when the argument is [undefined]. *)
Definition default_param (arg dflt : jsval) : jsval :=
  match arg with
  | JUndefined => dflt
  | _ => arg
  end.

(** [a || b] on strings: the empty string is falsy. *)
Definition or_else (a b : string) : string :=
  if a =? "" then b else a.

(** White space removed by [String.prototype.trim]: the white space and
    the line terminators of ECMAScript.  In UTF-8 such a character takes
    one, two or three bytes.

    One byte: U+0009 to U+000D (tab, line feed, vertical tab, form feed,
    carriage return) and U+0020 (space). *)
Definition is_white_space (ch : ascii) : bool :=
  let n := nat_of_ascii ch in
  ((9 <=? n)%nat && (n <=? 13)%nat) || (n =? 32)%nat.

(** Two bytes: U+00A0, the no-break space (C2 A0). *)
Definition is_white_space2 (b1 b2 : ascii) : bool :=
  ((nat_of_ascii b1 =? 194) && (nat_of_ascii b2 =? 160))%nat.

(** Three bytes: U+1680 (E1 9A 80); U+2000 to U+200A, U+2028, U+2029 and
    U+202F (E2 80 80 to 8A, A8, A9, AF); U+205F (E2 81 9F); U+3000
    (E3 80 80); U+FEFF (EF BB BF). *)
Definition is_white_space3 (b1 b2 b3 : ascii) : bool :=
  let n1 := nat_of_ascii b1 in
  let n2 := nat_of_ascii b2 in
  let n3 := nat_of_ascii b3 in
  ((n1 =? 225) && (n2 =? 154) && (n3 =? 128)
   || (n1 =? 226) && (n2 =? 128)
      && ((128 <=? n3) && (n3 <=? 138) || (n3 =? 168) || (n3 =? 169) || (n3 =? 175))
   || (n1 =? 226) && (n2 =? 129) && (n3 =? 159)
   || (n1 =? 227) && (n2 =? 128) && (n3 =? 128)
   || (n1 =? 239) && (n2 =? 187) && (n3 =? 191))%nat.

Fixpoint trimStart (s : string) : string :=
  match s with
  | EmptyString => EmptyString
  | String b1 rest1 =>
      if is_white_space b1 then trimStart rest1 else
      match rest1 with
      | EmptyString => s
      | String b2 rest2 =>
          if is_white_space2 b1 b2 then trimStart rest2 else
          match rest2 with
          | EmptyString => s
          | String b3 rest3 =>
              if is_white_space3 b1 b2 b3 then trimStart rest3 else s
          end
      end
  end.

(** A composer text that is empty or made of white space only. *)
Fixpoint whitespace_only (s : string) : bool :=
  match s with
  | EmptyString => true
  | String b1 rest1 =>
      if is_white_space b1 then whitespace_only rest1 else
      match rest1 with
      | EmptyString => false
      | String b2 rest2 =>
          if is_white_space2 b1 b2 then whitespace_only rest2 else
          match rest2 with
          | EmptyString => false
          | String b3 rest3 =>
              is_white_space3 b1 b2 b3 && whitespace_only rest3
          end
      end
  end.

(** The end of the string is cut where only white space follows. *)
Fixpoint trimEnd (s : string) : string :=
  match s with
  | EmptyString => EmptyString
  | String ch rest =>
      if whitespace_only s then EmptyString else String ch (trimEnd rest)
  end.

Definition trim (s : string) : string := trimEnd (trimStart s).

(** ** Data model *)

Module Session.
Record t : Type := mk {
  id : jsval;
  title : option string;
  created : string
}.
End Session.

Module Message.
Record t : Type := mk {
  id : jsval;
  session : jsval;
  role : string;
  text : string;
  created : string
}.
End Message.

(** The [useState] cells of [HomePage]. *)
Record State : Type := mkState {
  sessions : list Session.t;
  activeSessionId : jsval;
  history : list Message.t;
  loading : bool;
  error : string;
  chatInput : string;
  chatLoading : bool;
  editingId : jsval;
  editingOriginalText : string
}.

Definition initial_state : State :=
  {| sessions := [];
     activeSessionId := JNull;
     history := [];
     loading := false;
     error := "";
     chatInput := "";
     chatLoading := false;
     editingId := JNull;
     editingOriginalText := "" |}.

Definition with_sessions (f : list Session.t -> list Session.t) (s : State) : State :=
  mkState (f (sessions s)) (activeSessionId s) (history s) (loading s) (error s)
          (chatInput s) (chatLoading s) (editingId s) (editingOriginalText s).

Definition with_activeSessionId (v : jsval) (s : State) : State :=
  mkState (sessions s) v (history s) (loading s) (error s)
          (chatInput s) (chatLoading s) (editingId s) (editingOriginalText s).

Definition with_history (f : list Message.t -> list Message.t) (s : State) : State :=
  mkState (sessions s) (activeSessionId s) (f (history s)) (loading s) (error s)
          (chatInput s) (chatLoading s) (editingId s) (editingOriginalText s).

Definition with_loading (b : bool) (s : State) : State :=
  mkState (sessions s) (activeSessionId s) (history s) b (error s)
          (chatInput s) (chatLoading s) (editingId s) (editingOriginalText s).

Definition with_error (e : string) (s : State) : State :=
  mkState (sessions s) (activeSessionId s) (history s) (loading s) e
          (chatInput s) (chatLoading s) (editingId s) (editingOriginalText s).

Definition with_chatInput (t : string) (s : State) : State :=
  mkState (sessions s) (activeSessionId s) (history s) (loading s) (error s)
          t (chatLoading s) (editingId s) (editingOriginalText s).

Definition with_chatLoading (b : bool) (s : State) : State :=
  mkState (sessions s) (activeSessionId s) (history s) (loading s) (error s)
          (chatInput s) b (editingId s) (editingOriginalText s).

Definition with_editingId (v : jsval) (s : State) : State :=
  mkState (sessions s) (activeSessionId s) (history s) (loading s) (error s)
          (chatInput s) (chatLoading s) v (editingOriginalText s).

Definition with_editingOriginalText (t : string) (s : State) : State :=
  mkState (sessions s) (activeSessionId s) (history s) (loading s) (error s)
          (chatInput s) (chatLoading s) (editingId s) t.

(** ** The network *)

(** The arguments of one [fetch] call.  [body] is the object literal handed
    to [JSON.stringify], [None] when the call has no body. *)
Record Request : Type := mkRequest {
  method : string;
  url : string;
  headers : list (string * string);
  body : option (list (string * jsval))
}.

Record Response : Type := mkResponse {
  status : Z;
  statusText : string;
  text : string
}.

(** [res.ok] *)
Definition ok (res : Response) : bool :=
  (200 <=? status res)%Z && (status res <=? 299)%Z.

Record Error : Type := mkError { message : string }.

(** A [fetch] promise either rejects (transport failure) or resolves with
    a response of any status. *)
Inductive FetchResult : Type :=
| Rejected (e : Error)
| Resolved (res : Response).

(** What [res.json()] settles to: a rejection when the body is not JSON,
    else the decoded payload. *)
Inductive Parsed (A : Type) : Type :=
| SyntaxError (e : Error)
| Json (v : A).
Arguments SyntaxError {A} e.
Arguments Json {A} v.

(** What the page cannot see into: the build-time base URL, the assistant
    API behind [fetch], the JSON decoding of its bodies and the user's
    answer to [window.confirm].  The API is an external collaborator; a
    body of a successful answer either fails to parse or decodes to the
    payload its endpoint serves. *)
Class Environment : Type := {
  NEXT_PUBLIC_API_BASE_URL : option string;
  Server : Type;
  serve : Request -> Server -> FetchResult * Server;
  json_sessions : string -> Parsed (list Session.t);
  json_session : string -> Parsed Session.t;
  json_messages : string -> Parsed (list Message.t);
  json_message : string -> Parsed Message.t;
  json_any : string -> Parsed unit;
  window_confirm : string -> bool
}.

(** One suspended [fetch]: the request, the state React has committed (and
    shows) while the handler awaits, and the answer that arrives. *)
Record Event : Type := mkEvent {
  request : Request;
  shown : State;
  answer : FetchResult
}.

Record World `{Environment} : Type := mkWorld {
  ui : State;
  net : Server;
  trace : list Event;
  console : list (list string)
}.
Arguments mkWorld {_} ui net trace console.

(** ** Handlers as computations *)

Inductive Completion (A : Type) : Type :=
| Normal (a : A)
| Throw (e : Error).
Arguments Normal {A} a.
Arguments Throw {A} e.

Section Monad.
Context `{Environment}.

Definition M (A : Type) : Type := World -> Completion A * World.

Definition ret {A} (a : A) : M A := fun w => (Normal a, w).

Definition bind {A B} (m : M A) (k : A -> M B) : M B :=
  fun w =>
    match m w with
    | (Normal a, w') => k a w'
    | (Throw e, w') => (Throw e, w')
    end.

Definition throw {A} (e : Error) : M A := fun w => (Throw e, w).

(** [try { body } catch (err) { handler }] *)
Definition try_catch {A} (body : M A) (handler : Error -> M A) : M A :=
  fun w =>
    match body w with
    | (Normal a, w') => (Normal a, w')
    | (Throw e, w') => handler e w'
    end.

(** [try { body } finally { cleanup }] *)
Definition try_finally {A} (body : M A) (cleanup : M unit) : M A :=
  fun w =>
    match body w with
    | (r, w') =>
        match cleanup w' with
        | (Normal _, w'') => (r, w'')
        | (Throw e, w'') => (Throw e, w'')
        end
    end.

Definition update (f : State -> State) : M unit :=
  fun w => (Normal tt, mkWorld (f (ui w)) (net w) (trace w) (console w)).

Definition setSessions (data : list Session.t) : M unit :=
  update (with_sessions (fun _ => data)).
Definition setSessionsWith (f : list Session.t -> list Session.t) : M unit :=
  update (with_sessions f).
Definition setActiveSessionId (v : jsval) : M unit :=
  update (with_activeSessionId v).
Definition setHistory (data : list Message.t) : M unit :=
  update (with_history (fun _ => data)).
Definition setHistoryWith (f : list Message.t -> list Message.t) : M unit :=
  update (with_history f).
Definition setLoading (b : bool) : M unit := update (with_loading b).
Definition setError (e : string) : M unit := update (with_error e).
Definition setChatInput (t : string) : M unit := update (with_chatInput t).
Definition setChatLoading (b : bool) : M unit := update (with_chatLoading b).
Definition setEditingId (v : jsval) : M unit := update (with_editingId v).
Definition setEditingOriginalText (t : string) : M unit :=
  update (with_editingOriginalText t).

(** [await fetch(...)]: the server answers and moves on; the request is
    recorded with the state on screen and the answer. *)
Definition fetch (req : Request) : M Response :=
  fun w =>
    let (answer, net') := serve req (net w) in
    let w' := mkWorld (ui w) net' (trace w ++ [mkEvent req (ui w) answer])
                      (console w) in
    match answer with
    | Rejected e => (Throw e, w')
    | Resolved res => (Normal res, w')
    end.

(** [await res.json()] *)
Definition json {A} (decode : string -> Parsed A) (res : Response) : M A :=
  match decode (text res) with
  | SyntaxError e => throw e
  | Json v => ret v
  end.

(** [console.error(...args)] *)
Definition console_error (args : list string) : M unit :=
  fun w => (Normal tt, mkWorld (ui w) (net w) (trace w) (console w ++ [args])).

End Monad.

Declare Scope js_scope.
Delimit Scope js_scope with js.
Notation "x <- c1 ;; c2" := (bind c1 (fun x => c2))
  (at level 61, c1 at next level, right associativity) : js_scope.
Notation "c1 ;; c2" := (bind c1 (fun _ => c2))
  (at level 61, right associativity) : js_scope.
Notation "'when' b 'do' c" := (if b then c else ret tt)
  (at level 60, b at level 9) : js_scope.
Local Open Scope js_scope.

(** ** The component *)

Section HomePage.
Context `{Environment}.

(** [process.env.NEXT_PUBLIC_API_BASE_URL || "http://localhost:8000/api"] *)
Definition API_BASE_URL : string :=
  match NEXT_PUBLIC_API_BASE_URL with
  | Some configured => or_else configured "http://localhost:8000/api"
  | None => "http://localhost:8000/api"
  end.

Definition json_headers : list (string * string) :=
  [("Content-Type", "application/json")].

(** The state of the render whose closures the handlers are. *)
Variable c : State.

Definition handleCreateNewChat : M unit :=
  try_catch
    (setError "" ;;
     res <- fetch (mkRequest "POST" (API_BASE_URL ++ "/sessions/")
                             json_headers (Some [])) ;;
     when (negb (ok res)) do
       (let errText := text res in
        throw (mkError ("Failed to create session: " ++ num_to_string (status res)
                        ++ " " ++ statusText res ++ " - " ++ errText))) ;;
     created <- json json_session res ;;
     setActiveSessionId (Session.id created) ;;
     setSessionsWith (fun prev => created :: prev) ;;
     setHistory [] ;;
     setChatInput "")
    (fun err => setError (or_else (message err) "Failed to create new chat")).

(** [fetchMessages(sessionId = activeSessionId)] *)
Definition fetchMessages (arg : jsval) : M unit :=
  let sessionId := default_param arg (activeSessionId c) in
  if negb (truthy sessionId) then ret tt else
  try_finally
    (try_catch
       (setLoading true ;;
        setError "" ;;
        res <- fetch (mkRequest "GET"
                        (API_BASE_URL ++ "/messages/?session=" ++ to_string sessionId)
                        [] None) ;;
        when (negb (ok res)) do
          throw (mkError ("Failed to fetch messages: " ++ num_to_string (status res))) ;;
        data <- json json_messages res ;;
        setHistory data)
       (fun err => setError (or_else (message err) "Failed to fetch messages")))
    (setLoading false).

Definition fetchSessions : M unit :=
  try_catch
    (res <- fetch (mkRequest "GET" (API_BASE_URL ++ "/sessions/") [] None) ;;
     when (negb (ok res)) do
       throw (mkError ("Failed to fetch sessions: " ++ num_to_string (status res))) ;;
     data <- json json_sessions res ;;
     setSessions data ;;
     match data with
     | first :: _ =>
         if negb (truthy (activeSessionId c)) then
           (let firstId := Session.id first in
            setActiveSessionId firstId ;;
            fetchMessages firstId)
         else ret tt
     | [] => ret tt
     end)
    (fun err => console_error [message err]).

(** [message] is [None] for a [null] or [undefined] argument. *)
Definition beginEditMessage (message : option Message.t) : M unit :=
  match message with
  | None => ret tt
  | Some m =>
      if negb (Message.role m =? "user") || negb (typeof (Message.id m) =? "number")
      then ret tt
      else
        setEditingId (Message.id m) ;;
        setEditingOriginalText (Message.text m) ;;
        setChatInput (Message.text m)
  end.

Definition cancelEdit : M unit :=
  setEditingId JNull ;;
  setEditingOriginalText "" ;;
  setChatInput "".

Definition handleDeleteMessage (id : jsval) : M unit :=
  if negb (typeof id =? "number") then ret tt else
  let confirmed := window_confirm "Delete this message?" in
  if negb confirmed then ret tt else
  try_catch
    (setError "" ;;
     res <- fetch (mkRequest "DELETE"
                     (API_BASE_URL ++ "/messages/" ++ to_string id ++ "/") [] None) ;;
     when (negb (ok res) && negb (status res =? 204)%Z) do
       throw (mkError ("Failed to delete message: " ++ num_to_string (status res))) ;;
     setHistoryWith (filter (fun m => negb (strict_eq (Message.id m) id))))
    (fun err => setError (or_else (message err) "Failed to delete message")).

Definition sendNewChatMessage : M unit :=
  if trim (chatInput c) =? "" then ret tt else
  try_finally
    (try_catch
       (setChatLoading true ;;
        setError "" ;;
        sessionId <-
          (if negb (truthy (activeSessionId c)) then
             sessionRes <- fetch (mkRequest "POST" (API_BASE_URL ++ "/sessions/")
                                            json_headers (Some [])) ;;
             when (negb (ok sessionRes)) do
               (let errText := text sessionRes in
                throw (mkError ("Failed to create session: "
                                ++ num_to_string (status sessionRes) ++ " "
                                ++ statusText sessionRes ++ " - " ++ errText))) ;;
             created <- json json_session sessionRes ;;
             setActiveSessionId (Session.id created) ;;
             setSessionsWith (fun prev => created :: prev) ;;
             ret (Session.id created)
           else ret (activeSessionId c)) ;;
        res <- fetch (mkRequest "POST" (API_BASE_URL ++ "/chat/") json_headers
                        (Some [("message", JStr (chatInput c)); ("session", sessionId)])) ;;
        when (negb (ok res)) do
          (let errText := text res in
           throw (mkError ("Chat request failed: " ++ num_to_string (status res)
                           ++ " " ++ statusText res ++ " - " ++ errText))) ;;
        _ <- json json_any res ;;
        fetchMessages sessionId ;;
        setChatInput "")
       (fun err => setError (or_else (message err) "Failed to send chat message")))
    (setChatLoading false).

Definition saveEditedMessage : M unit :=
  if negb (truthy (editingId c)) || (trim (chatInput c) =? "") then ret tt else
  let newText := chatInput c in
  try_finally
    (try_catch
       (setChatLoading true ;;
        setError "" ;;
        res <- fetch (mkRequest "PATCH"
                        (API_BASE_URL ++ "/messages/" ++ to_string (editingId c) ++ "/")
                        json_headers (Some [("text", JStr newText)])) ;;
        when (negb (ok res)) do
          (let errText := text res in
           throw (mkError ("Update failed: " ++ num_to_string (status res)
                           ++ " " ++ statusText res ++ " - " ++ errText))) ;;
        updated <- json json_message res ;;
        setHistoryWith
          (map (fun m => if strict_eq (Message.id m) (Message.id updated)
                         then updated else m)) ;;
        try_catch
          (regenRes <- fetch (mkRequest "POST"
                                (API_BASE_URL ++ "/messages/"
                                 ++ to_string (Message.id updated) ++ "/regenerate/")
                                json_headers None) ;;
           if ok regenRes then fetchMessages (Message.session updated)
           else
             (let errText := text regenRes in
              console_error ["Regenerate failed:"; num_to_string (status regenRes);
                             errText]))
          (fun e => console_error ["Regenerate request error:"; message e]) ;;
        setEditingId JNull ;;
        setEditingOriginalText "" ;;
        setChatInput "")
       (fun err => setError (or_else (message err) "Failed to update message")))
    (setChatLoading false).

Definition handleSubmit : M unit :=
  if truthy (editingId c) then saveEditedMessage else sendNewChatMessage.

(** The [onClick] of a session row [s] in the sidebar. *)
Definition selectSessionOnClick (s : Session.t) : M unit :=
  setActiveSessionId (Session.id s) ;;
  fetchMessages (Session.id s).

(** The [onClick] of the delete mark of a session row [s]. *)
Definition deleteSessionOnClick (s : Session.t) : M unit :=
  let confirmed := window_confirm "Delete this chat and its messages?" in
  if negb confirmed then ret tt else
  try_catch
    (delRes <- fetch (mkRequest "DELETE"
                        (API_BASE_URL ++ "/sessions/" ++ to_string (Session.id s) ++ "/")
                        [] None) ;;
     when (negb (ok delRes) && negb (status delRes =? 204)%Z) do
       (let errText := text delRes in
        throw (mkError ("Failed to delete session: " ++ num_to_string (status delRes)
                        ++ " " ++ statusText delRes ++ " - " ++ errText))) ;;
     setSessionsWith
       (filter (fun sess => negb (strict_eq (Session.id sess) (Session.id s)))) ;;
     when (strict_eq (activeSessionId c) (Session.id s)) do
       (setActiveSessionId JNull ;;
        setHistory []))
    (fun err =>
       console_error [message err] ;;
       setError (or_else (message err) "Failed to delete chat session")).

End HomePage.

(** A user event: React calls the handler of the latest render, whose
    closure holds the state of that render, and the handler runs to its
    end. *)
Definition dispatch `{Environment} {A} (handler : State -> M A) : M A :=
  fun w => handler (ui w) w.

Definition after `{Environment} {A} (handler : State -> M A) (w : World) : World :=
  snd (dispatch handler w).

(** The requests a world has seen, oldest first. *)
Definition requests `{Environment} (w : World) : list Request :=
  map request (trace w).

(** ** Vocabulary of the statements *)

Section Requests.
Context `{Environment}.

(** The calls of the interface table, as the handlers build them. *)
Definition list_sessions_request : Request :=
  mkRequest "GET" (API_BASE_URL ++ "/sessions/") [] None.

Definition create_session_request : Request :=
  mkRequest "POST" (API_BASE_URL ++ "/sessions/") json_headers (Some []).

Definition delete_session_request (id : jsval) : Request :=
  mkRequest "DELETE" (API_BASE_URL ++ "/sessions/" ++ to_string id ++ "/") [] None.

Definition list_messages_request (session : jsval) : Request :=
  mkRequest "GET" (API_BASE_URL ++ "/messages/?session=" ++ to_string session) [] None.

Definition chat_request (message : string) (session : jsval) : Request :=
  mkRequest "POST" (API_BASE_URL ++ "/chat/") json_headers
            (Some [("message", JStr message); ("session", session)]).

Definition update_message_request (id : jsval) (text : string) : Request :=
  mkRequest "PATCH" (API_BASE_URL ++ "/messages/" ++ to_string id ++ "/")
            json_headers (Some [("text", JStr text)]).

Definition regenerate_request (id : jsval) : Request :=
  mkRequest "POST" (API_BASE_URL ++ "/messages/" ++ to_string id ++ "/regenerate/")
            json_headers None.

Definition delete_message_request (id : jsval) : Request :=
  mkRequest "DELETE" (API_BASE_URL ++ "/messages/" ++ to_string id ++ "/") [] None.

End Requests.

(** A request fails when its promise rejects or its status is not 2xx. *)
Definition failed (answer : FetchResult) : bool :=
  match answer with
  | Rejected _ => true
  | Resolved res => negb (ok res)
  end.

(** The message is the one the composer is editing. *)
Definition being_edited (s : State) (m : Message.t) : bool :=
  truthy (editingId s) && strict_eq (Message.id m) (editingId s).

(** Between [w] and [w'] requests were issued, and each of them, the first
    included, went out with an empty error string on screen. *)
Definition error_cleared_first `{Environment} (w w' : World) : Prop :=
  exists first later,
    trace w' = trace w ++ first :: later /\
    Forall (fun ev => error (shown ev) = "") (first :: later).

(** The history on screen is a list some GET of the trace was answered
    with. *)
Definition history_from_server `{Environment} (w : World) : Prop :=
  exists ev res,
    In ev (trace w) /\
    method (request ev) = "GET" /\
    answer ev = Resolved res /\
    ok res = true /\
    json_messages (text res) = Json (history (ui w)).

(** The session a send goes to, and the server once that session is
    known: the active session, else the one the server just created. *)
Definition sends_to `{Environment} (w : World) (session : jsval) (net0 : Server) : Prop :=
  (truthy (activeSessionId (ui w)) = true /\
   session = activeSessionId (ui w) /\ net0 = net w) \/
  (truthy (activeSessionId (ui w)) = false /\
   exists res created,
     serve create_session_request (net w) = (Resolved res, net0) /\
     ok res = true /\
     json_session (text res) = Json created /\
     session = Session.id created).

(** ** A scripted API for concrete runs

    The server state is the list of answers still to give, whatever the
    request; bodies of successful answers are keys of the payloads below. *)

Definition demo_session : Session.t :=
  Session.mk (JNum 1) None "2024-05-01T10:00:00Z".

Definition demo_session_2 : Session.t :=
  Session.mk (JNum 2) None "2024-05-02T09:30:00Z".

Definition demo_question : Message.t :=
  Message.mk (JNum 7) (JNum 1) "user" "Hello" "2024-05-01T10:00:05Z".

Definition demo_answer : Message.t :=
  Message.mk (JNum 8) (JNum 1) "assistant" "Hi, how can I help?" "2024-05-01T10:00:06Z".

Definition demo_question_edited : Message.t :=
  Message.mk (JNum 7) (JNum 1) "user" "Hello again" "2024-05-01T10:00:05Z".

Definition demo_regenerated : Message.t :=
  Message.mk (JNum 9) (JNum 1) "assistant" "Hello again to you." "2024-05-01T10:02:00Z".

Definition demo_decode {A} (table : list (string * A)) (body : string) : Parsed A :=
  match find (fun entry => fst entry =? body) table with
  | Some entry => Json (snd entry)
  | None => SyntaxError (mkError "Unexpected token < in JSON at position 0")
  end.

Definition demo : Environment := {|
  NEXT_PUBLIC_API_BASE_URL := None;
  Server := list FetchResult;
  serve := fun _ script =>
    match script with
    | [] => (Rejected (mkError "Failed to fetch"), [])
    | answer :: rest => (answer, rest)
    end;
  json_sessions := demo_decode [("[]", []); ("[session 1]", [demo_session])];
  json_session :=
    demo_decode [("session 1", demo_session); ("session 2", demo_session_2)];
  json_messages :=
    demo_decode [("[]", []);
                 ("[message 7, message 8]", [demo_question; demo_answer]);
                 ("[message 7, message 9]", [demo_question_edited; demo_regenerated])];
  json_message := demo_decode [("message 7, edited", demo_question_edited)];
  json_any := demo_decode [("reply", tt); ("regenerated", tt)];
  window_confirm := fun _ => true
|}.

Definition http_ok (body : string) : FetchResult :=
  Resolved (mkResponse 200 "OK" body).

Definition http_no_content : FetchResult :=
  Resolved (mkResponse 204 "No Content" "").

Definition http_server_error : FetchResult :=
  Resolved (mkResponse 500 "Internal Server Error" "boom").

Definition demo_world (s : State) (script : list FetchResult) : @World demo :=
  @mkWorld demo s script [] [].

(** The page as it mounts, with a text typed into the composer. *)
Definition demo_fresh (typed : string) : State :=
  with_chatInput typed initial_state.

(** The page on session 1 with its two messages loaded. *)
Definition demo_chatting : State :=
  {| sessions := [demo_session];
     activeSessionId := JNum 1;
     history := [demo_question; demo_answer];
     loading := false;
     error := "";
     chatInput := "";
     chatLoading := false;
     editingId := JNull;
     editingOriginalText := "" |}.

(** The same page with [typed] in the composer. *)
Definition demo_typing (typed : string) : State :=
  with_chatInput typed demo_chatting.

(** The same page while the question (message 7) is edited into [typed]. *)
Definition demo_editing (typed : string) : State :=
  with_chatInput typed
    (with_editingOriginalText "Hello" (with_editingId (JNum 7) demo_chatting)).

(** ** What is rendered, and the moves of the user *)

(** The label of a session row,
    [s.title || `Chat #${s.id}` || "Untitled chat"]; a [null] title is as
    falsy as an empty one. *)
Definition sessionLabel (s : Session.t) : string :=
  or_else (or_else (match Session.title s with Some t => t | None => "" end)
                   ("Chat #" ++ to_string (Session.id s)))
          "Untitled chat".

(** [s.id === activeSessionId]: the row is drawn as the active one. *)
Definition isActive (c : State) (s : Session.t) : bool :=
  strict_eq (Session.id s) (activeSessionId c).

(** The Edit and Delete buttons of a message are rendered under
    [m.role === "user" && typeof m.id === "number"]. *)
Definition showsMessageActions (m : Message.t) : bool :=
  (Message.role m =? "user") && (typeof (Message.id m) =? "number").

(** The edit banner and the Cancel button are rendered under [editingId]. *)
Definition showsEditBanner (c : State) : bool := truthy (editingId c).

(** [disabled={chatLoading}] of the submit button. *)
Definition submitDisabled (c : State) : bool := chatLoading c.

(** The bindings of the JSX: what a user (or the mount effect) can set
    off. *)
Inductive Action : Type :=
| Mount
| ClickNew
| ClickSession (s : Session.t)
| ClickDeleteSession (s : Session.t)
| ClickEdit (m : Message.t)
| ClickDeleteMessage (m : Message.t)
| ChangeInput (value : string)
| ClickCancel
| SubmitForm.

Section Actions.
Context `{Environment}.

(** [onChange={(e) => setChatInput(e.target.value)}] *)
Definition onChangeChatInput (value : string) : M unit := setChatInput value.

Definition handler (a : Action) (c : State) : M unit :=
  match a with
  | Mount => fetchSessions c
  | ClickNew => handleCreateNewChat
  | ClickSession s => selectSessionOnClick c s
  | ClickDeleteSession s => deleteSessionOnClick c s
  | ClickEdit m => beginEditMessage (Some m)
  | ClickDeleteMessage m => handleDeleteMessage (Message.id m)
  | ChangeInput value => onChangeChatInput value
  | ClickCancel => cancelEdit
  | SubmitForm => handleSubmit c
  end.

(** The world after a sequence of moves, each handled to its end before
    the next. *)
Fixpoint play (moves : list Action) (w : World) : World :=
  match moves with
  | [] => w
  | a :: rest => play rest (after (handler a) w)
  end.

End Actions.

(** The edit pointer is [null] or a number. *)
Definition edit_pointer_ok (c : State) : Prop :=
  editingId c = JNull \/ typeof (editingId c) = "number".

(** Neither busy flag is up. *)
Definition idle (c : State) : Prop :=
  loading c = false /\ chatLoading c = false.

(** The moves on the messages and the composer; a submit counts as one
    while an edit is in progress or a session is active (else it creates a
    session first). *)
Definition message_move (c : State) (a : Action) : bool :=
  match a with
  | ClickEdit _ | ClickDeleteMessage _ | ChangeInput _ | ClickCancel => true
  | SubmitForm => truthy (editingId c) || truthy (activeSessionId c)
  | Mount | ClickNew | ClickSession _ | ClickDeleteSession _ => false
  end.

(** The moves on the session list. *)
Definition session_move (a : Action) : bool :=
  match a with
  | Mount | ClickNew | ClickSession _ | ClickDeleteSession _ => true
  | _ => false
  end.

(** A further session of the demo API. *)
Definition demo_session_3 : Session.t :=
  Session.mk (JNum 3) (Some "Holiday plans") "2024-05-03T08:00:00Z".

(** A text of white space beyond ASCII: a no-break space (U+00A0), an
    ideographic space (U+3000), a tab and a line separator (U+2028). *)
Definition unicode_blank : string :=
  string_of_list_ascii
    (map ascii_of_nat [194; 160; 227; 128; 128; 9; 226; 128; 168]).

(** The demo API before a user who declines every confirmation. *)
Definition demo_declining : Environment := {|
  NEXT_PUBLIC_API_BASE_URL := Some "https://assistant.example/api";
  Server := list FetchResult;
  serve := @serve demo;
  json_sessions := @json_sessions demo;
  json_session := @json_session demo;
  json_messages := @json_messages demo;
  json_message := @json_message demo;
  json_any := @json_any demo;
  window_confirm := fun _ => false
|}.

(** * Properties *)

Arguments num_to_string : simpl never.
Arguments API_BASE_URL : simpl never.
Arguments String.append : simpl never.
Arguments default_param : simpl never.

(** ** Values and strings *)

Lemma default_param_truthy (arg dflt : jsval) :
  truthy arg = true -> default_param arg dflt = arg.
Proof. unfold default_param. destruct arg; cbn; congruence. Qed.

Lemma strict_eq_spec (a b : jsval) : strict_eq a b = true <-> a = b.
Proof.
  destruct a, b; cbn; split; try congruence; try discriminate.
  - intros E. apply Bool.eqb_prop in E. now subst.
  - intros E. injection E as ->. apply Bool.eqb_reflx.
  - intros E. apply Z.eqb_eq in E. now subst.
  - intros E. injection E as ->. apply Z.eqb_refl.
  - intros E. apply String.eqb_eq in E. now subst.
  - intros E. injection E as ->. apply String.eqb_refl.
Qed.

Lemma or_else_nonempty (a b : string) : b <> "" -> or_else a b <> "".
Proof.
  unfold or_else. intros Hb. destruct (a =? "") eqn:E; [exact Hb|].
  now apply String.eqb_neq in E.
Qed.

Lemma ok_no_content (res : Response) : status res = 204%Z -> ok res = true.
Proof. unfold ok. intros ->. reflexivity. Qed.

Lemma trimStart_cases (n : nat) (s : string) :
  String.length s <= n ->
  (whitespace_only s = true /\ trimStart s = "") \/
  (whitespace_only s = false /\
   exists ch rest,
     trimStart s = String ch rest /\ whitespace_only (String ch rest) = false).
Proof.
  revert s. induction n as [|n IH]; intros s Hlen.
  - destruct s; [now left | cbn in Hlen; lia].
  - destruct s as [|b1 [|b2 [|b3 rest3]]]; [now left | | |]; cbn in Hlen |- *.
    + destruct (is_white_space b1) eqn:E1; [now left|].
      right. split; [reflexivity|]. exists b1, "". cbn. now rewrite E1.
    + destruct (is_white_space b1) eqn:E1.
      * apply (IH (String b2 "")). cbn. lia.
      * destruct (is_white_space2 b1 b2) eqn:E2; [now left|].
        right. split; [reflexivity|]. exists b1, (String b2 ""). cbn.
        now rewrite E1, E2.
    + destruct (is_white_space b1) eqn:E1.
      * apply (IH (String b2 (String b3 rest3))). cbn. lia.
      * destruct (is_white_space2 b1 b2) eqn:E2.
        -- apply (IH (String b3 rest3)). cbn. lia.
        -- destruct (is_white_space3 b1 b2 b3) eqn:E3; cbn.
           ++ apply IH. lia.
           ++ right. split; [reflexivity|].
              exists b1, (String b2 (String b3 rest3)). cbn.
              now rewrite E1, E2, E3.
Qed.

(** [!text.trim()] holds exactly for the texts made of white space. *)
Lemma trim_whitespace_only (s : string) :
  trim s = "" <-> whitespace_only s = true.
Proof.
  unfold trim.
  destruct (trimStart_cases (String.length s) s (le_n _))
    as [[Hws ->] | [Hws (ch & rest & -> & Hrest)]].
  - now split.
  - split; [|congruence]. cbn [trimEnd]. rewrite Hrest. discriminate.
Qed.

Lemma trim_eqb_blank (s : string) :
  (trim s =? "") = whitespace_only s.
Proof.
  destruct (whitespace_only s) eqn:E.
  - apply String.eqb_eq. now apply trim_whitespace_only.
  - apply String.eqb_neq. intros E'. apply trim_whitespace_only in E'. congruence.
Qed.

(** ** Running handlers *)

Ltac unfold_monad :=
  unfold try_finally, try_catch, bind, ret, throw, json, fetch, console_error,
    setSessions, setSessionsWith, setActiveSessionId, setHistory, setHistoryWith,
    setLoading, setError, setChatInput, setChatLoading, setEditingId,
    setEditingOriginalText, update.

Ltac unfold_requests :=
  unfold list_sessions_request, create_session_request, delete_session_request,
    list_messages_request, chat_request, update_message_request,
    regenerate_request, delete_message_request in *.

(** Follow the answers the hypotheses give. *)
Ltac follow :=
  repeat (cbn;
    match goal with
    | E : truthy ?v = true |- context [default_param ?v ?d] =>
        rewrite (default_param_truthy v d E)
    | E : serve ?r ?n = _ |- context [serve ?r ?n] => rewrite E
    | E : ok ?r = _ |- context [ok ?r] => rewrite E
    | E : ?decode (text ?r) = _ |- context [?decode (text ?r)] => rewrite E
    | E : truthy ?v = _ |- context [truthy ?v] => rewrite E
    | E : whitespace_only ?s = _ |- context [trim ?s =? ""] =>
        rewrite (trim_eqb_blank s), E
    | E : window_confirm ?q = _ |- context [window_confirm ?q] => rewrite E
    | E : strict_eq ?a ?b = _ |- context [strict_eq ?a ?b] => rewrite E
    | E : default_param ?a ?b = _ |- context [default_param ?a ?b] => rewrite E
    end); cbn.

Section Properties.
Context `{Environment}.

(** C9. Sending a composer text that is empty or only white space does
    nothing at all: the handler returns at once, and the world (React
    state with history, sessions, active session, composer and error
    string; the server; the trace of requests; the console) is the one
    it started from.  The same holds of the form's submit handler, which
    routes to the send or to the edit-save. *)
Theorem blank_send_is_noop (w : World) :
  whitespace_only (chatInput (ui w)) = true ->
  dispatch sendNewChatMessage w = (Normal tt, w) /\
  dispatch handleSubmit w = (Normal tt, w).
Proof.
  intros Hblank.
  unfold dispatch, handleSubmit, saveEditedMessage, sendNewChatMessage.
  rewrite trim_eqb_blank, Hblank, orb_true_r.
  split; [reflexivity|]. now destruct (truthy (editingId (ui w))).
Qed.

(** C8. A message enters edit mode only when its role is "user" and its
    identifier is a number, otherwise [beginEditMessage] changes nothing;
    the edit-save does nothing unless an edit is in progress and the
    replacement text is not blank (empty, or white space only); and at
    most one message is in edit state at any time: the messages being
    edited share one identifier, starting an edit takes every message of
    another identifier out of edit state, whatever was being edited
    before, and cancelling leaves none in it. *)
Theorem edit_mode_guards (w : World) (m : Message.t) :
  (Message.role m <> "user" \/ typeof (Message.id m) <> "number" ->
   dispatch (fun _ => beginEditMessage (Some m)) w = (Normal tt, w)) /\
  dispatch (fun _ => beginEditMessage None) w = (Normal tt, w) /\
  (Message.role m = "user" -> typeof (Message.id m) = "number" ->
   dispatch (fun _ => beginEditMessage (Some m)) w =
     (Normal tt,
      mkWorld (with_chatInput (Message.text m)
                 (with_editingOriginalText (Message.text m)
                    (with_editingId (Message.id m) (ui w))))
              (net w) (trace w) (console w))) /\
  (editingId (ui (after (fun _ => beginEditMessage (Some m)) w)) <> editingId (ui w) ->
   Message.role m = "user" /\ typeof (Message.id m) = "number") /\
  (truthy (editingId (ui w)) = false \/ whitespace_only (chatInput (ui w)) = true ->
   dispatch saveEditedMessage w = (Normal tt, w)) /\
  (forall m1 m2 : Message.t,
     being_edited (ui w) m1 = true -> being_edited (ui w) m2 = true ->
     Message.id m1 = Message.id m2) /\
  (forall other : Message.t,
     Message.role m = "user" -> typeof (Message.id m) = "number" ->
     being_edited (ui (after (fun _ => beginEditMessage (Some m)) w)) other = true ->
     Message.id other = Message.id m) /\
  (forall other : Message.t,
     being_edited (ui (after (fun _ => cancelEdit) w)) other = false).
Proof.
  repeat apply conj.
  - intros Hno. unfold dispatch, beginEditMessage.
    destruct Hno as [Hrole | Hid].
    + apply String.eqb_neq in Hrole. now rewrite Hrole.
    + apply String.eqb_neq in Hid. rewrite Hid. now rewrite orb_true_r.
  - reflexivity.
  - intros Hrole Hid. unfold dispatch, beginEditMessage.
    rewrite Hrole, Hid. reflexivity.
  - unfold after, dispatch, beginEditMessage.
    destruct (Message.role m =? "user") eqn:Hrole;
      destruct (typeof (Message.id m) =? "number") eqn:Hid; cbn;
      try congruence.
    intros _. split; now apply String.eqb_eq.
  - intros Hno. unfold dispatch, saveEditedMessage.
    destruct Hno as [Hid | Hblank].
    + now rewrite Hid.
    + rewrite trim_eqb_blank, Hblank. now rewrite orb_true_r.
  - intros m1 m2 H1 H2. unfold being_edited in *.
    apply andb_prop in H1 as [_ H1]. apply andb_prop in H2 as [_ H2].
    apply strict_eq_spec in H1, H2. congruence.
  - intros other Hrole Hid. unfold after, dispatch, beginEditMessage, being_edited.
    rewrite Hrole, Hid. cbn. intros Hedited.
    apply andb_prop in Hedited as [_ Hsame]. now apply strict_eq_spec in Hsame.
  - intros other. reflexivity.
Qed.

(** C6. A confirmed deletion of session [s] that the server accepts
    (2xx, or 204) removes the sessions of that identifier from the list;
    when [s] was the active session the active pointer becomes [null] and
    the history empty, otherwise both stay as they were. *)
Theorem delete_session_success (w : World) (s : Session.t)
        (res : Response) (net' : Server) :
  window_confirm "Delete this chat and its messages?" = true ->
  serve (delete_session_request (Session.id s)) (net w) = (Resolved res, net') ->
  ok res = true \/ status res = 204%Z ->
  let w' := after (fun c => deleteSessionOnClick c s) w in
  sessions (ui w') =
    filter (fun sess => negb (strict_eq (Session.id sess) (Session.id s)))
           (sessions (ui w)) /\
  (activeSessionId (ui w) = Session.id s ->
   activeSessionId (ui w') = JNull /\ history (ui w') = []) /\
  (activeSessionId (ui w) <> Session.id s ->
   activeSessionId (ui w') = activeSessionId (ui w) /\
   history (ui w') = history (ui w)).
Proof.
  intros Hconfirm Hserve Hres.
  assert (Hok : ok res = true) by (destruct Hres; auto using ok_no_content).
  unfold_requests. unfold after, dispatch, deleteSessionOnClick. unfold_monad.
  destruct (strict_eq (activeSessionId (ui w)) (Session.id s)) eqn:Hactive; follow.
  - apply strict_eq_spec in Hactive. repeat split; congruence.
  - assert (activeSessionId (ui w) <> Session.id s)
      by (intros E; apply strict_eq_spec in E; congruence).
    repeat split; congruence.
Qed.


(** X22. For every prior state, a session creation that the server
    answers with a session prepends that session to the list, makes its
    identifier the active one, empties the history and the composer text,
    and leaves no error on screen; one POST went out. *)
Theorem create_session_success (w : World) (res : Response) (net' : Server)
        (created : Session.t) :
  serve create_session_request (net w) = (Resolved res, net') ->
  ok res = true ->
  json_session (text res) = Json created ->
  let w' := after (fun _ => handleCreateNewChat) w in
  sessions (ui w') = created :: sessions (ui w) /\
  activeSessionId (ui w') = Session.id created /\
  history (ui w') = [] /\
  chatInput (ui w') = "" /\
  error (ui w') = "" /\
  requests w' = requests w ++ [create_session_request].
Proof.
  intros Hserve Hok Hjson. unfold_requests.
  unfold requests, after, dispatch, handleCreateNewChat. unfold_monad. follow.
  rewrite map_app. repeat split.
Qed.

(** C3. While an edit is in progress with a non-blank text: when the
    PATCH fails (rejected, or not 2xx) the flow halts there, nothing but
    the error string and the busy flag changes, and the failure is shown;
    when the PATCH succeeds and the regenerate request then fails, the
    updated message stays spliced into the history by identifier, edit
    mode is left (pointer [null], composer empty), no error is shown and
    the failure is one more line on the console. *)
Theorem edit_then_failed_regenerate (w : World) (answer : FetchResult)
        (net1 : Server) :
  truthy (editingId (ui w)) = true ->
  whitespace_only (chatInput (ui w)) = false ->
  serve (update_message_request (editingId (ui w)) (chatInput (ui w))) (net w)
    = (answer, net1) ->
  let w' := after saveEditedMessage w in
  (failed answer = true ->
   error (ui w') <> "" /\
   error (ui w') =
     match answer with
     | Rejected e => or_else (message e) "Failed to update message"
     | Resolved res =>
         ("Update failed: " ++ num_to_string (status res) ++ " "
            ++ statusText res ++ " - " ++ text res)%string
     end /\
   requests w' =
     requests w ++ [update_message_request (editingId (ui w)) (chatInput (ui w))] /\
   history (ui w') = history (ui w) /\
   editingId (ui w') = editingId (ui w) /\
   chatInput (ui w') = chatInput (ui w) /\
   console w' = console w) /\
  (forall (res : Response) (updated : Message.t) (regen : FetchResult) (net2 : Server),
     answer = Resolved res ->
     ok res = true ->
     json_message (text res) = Json updated ->
     serve (regenerate_request (Message.id updated)) net1 = (regen, net2) ->
     failed regen = true ->
     history (ui w') =
       map (fun m => if strict_eq (Message.id m) (Message.id updated)
                     then updated else m)
           (history (ui w)) /\
     editingId (ui w') = JNull /\
     editingOriginalText (ui w') = "" /\
     chatInput (ui w') = "" /\
     error (ui w') = "" /\
     chatLoading (ui w') = false /\
     requests w' =
       requests w ++ [update_message_request (editingId (ui w)) (chatInput (ui w));
                      regenerate_request (Message.id updated)] /\
     console w' =
       console w ++
         [match regen with
          | Rejected e => ["Regenerate request error:"; message e]
          | Resolved bad =>
              ["Regenerate failed:"; num_to_string (status bad); text bad]
          end]).
Proof.
  intros Hedit Htext Hpatch w'. subst w'. unfold_requests.
  unfold requests, after, dispatch, saveEditedMessage. unfold_monad. split.
  - intros Hfailed. destruct answer as [e | res]; cbn in Hfailed.
    + follow. rewrite map_app. repeat split.
      apply or_else_nonempty. discriminate.
    + apply negb_true_iff in Hfailed. follow. rewrite map_app.
      repeat split. discriminate.
  - intros res updated regen net2 -> Hok Hjson Hregen Hfailed.
    destruct regen as [e | res2]; cbn in Hfailed.
    + follow. rewrite !map_app, <- app_assoc. repeat split.
    + apply negb_true_iff in Hfailed. follow.
      rewrite !map_app, <- app_assoc. repeat split.
Qed.

(** C4 (amended). After a PATCH that succeeded, the history is fetched
    again only when the regenerate request succeeded too, and then for the
    session the updated message names ([fetchMessages] falls back on the
    active session when it names none, and returns at once on a falsy
    identifier).  When the regenerate request fails no GET is issued: the
    history is the local one with the updated message spliced in. *)
Theorem reload_after_regenerate (w : World) (res : Response) (net1 : Server)
        (updated : Message.t) (regen : FetchResult) (net2 : Server) :
  truthy (editingId (ui w)) = true ->
  whitespace_only (chatInput (ui w)) = false ->
  serve (update_message_request (editingId (ui w)) (chatInput (ui w))) (net w)
    = (Resolved res, net1) ->
  ok res = true ->
  json_message (text res) = Json updated ->
  serve (regenerate_request (Message.id updated)) net1 = (regen, net2) ->
  let w' := after saveEditedMessage w in
  let session := default_param (Message.session updated) (activeSessionId (ui w)) in
  let spliced :=
    map (fun m => if strict_eq (Message.id m) (Message.id updated) then updated else m)
        (history (ui w)) in
  let patch := update_message_request (editingId (ui w)) (chatInput (ui w)) in
  (failed regen = true ->
   requests w' = requests w ++ [patch; regenerate_request (Message.id updated)] /\
   history (ui w') = spliced) /\
  (failed regen = false -> truthy session = false ->
   requests w' = requests w ++ [patch; regenerate_request (Message.id updated)] /\
   history (ui w') = spliced) /\
  (failed regen = false -> truthy session = true ->
   forall (reload : FetchResult) (net3 : Server),
     serve (list_messages_request session) net2 = (reload, net3) ->
     requests w' =
       requests w ++ [patch; regenerate_request (Message.id updated);
                      list_messages_request session] /\
     (forall (res3 : Response) (data : list Message.t),
        reload = Resolved res3 -> ok res3 = true ->
        json_messages (text res3) = Json data ->
        history (ui w') = data) /\
     (failed reload = true -> history (ui w') = spliced)).
Proof.
  intros Hedit Htext Hpatch Hok Hjson Hregen w' session spliced patch.
  subst w' session spliced patch. unfold_requests.
  unfold requests, after, dispatch, saveEditedMessage, fetchMessages. unfold_monad.
  repeat apply conj.
  - intros Hfailed. destruct regen as [e | res2]; cbn in Hfailed.
    + follow. rewrite !map_app, <- app_assoc. now split.
    + apply negb_true_iff in Hfailed. follow.
      rewrite !map_app, <- app_assoc. now split.
  - intros Hfailed Hfalsy. destruct regen as [e | res2]; cbn in Hfailed;
      [discriminate|]. apply negb_false_iff in Hfailed. follow.
    rewrite !map_app, <- app_assoc. now split.
  - intros Hfailed Htruthy reload net3 Hreload.
    destruct regen as [e | res2]; cbn in Hfailed; [discriminate|].
    apply negb_false_iff in Hfailed. follow.
    destruct reload as [e | res3].
    + follow. rewrite !map_app, <- !app_assoc. repeat split. discriminate.
    + destruct (ok res3) eqn:Hok3.
      * destruct (json_messages (text res3)) as [e | data'] eqn:Hdata; follow;
          rewrite !map_app, <- !app_assoc; repeat split;
          try discriminate; try congruence.
      * follow. rewrite !map_app, <- !app_assoc. repeat split; congruence.
Qed.

(** Split on whatever the server and the decoders may answer next. *)
Ltac any_answer :=
  repeat (cbn;
    match goal with
    | |- context [serve ?r ?n] => destruct (serve r n) as [[?e | ?res] ?net] eqn:?
    | |- context [ok ?r] => destruct (ok r) eqn:?
    | |- context [json_session (text ?r)] =>
        destruct (json_session (text r)) as [?e | ?created] eqn:?
    | |- context [json_sessions (text ?r)] =>
        destruct (json_sessions (text r)) as [?e | [| ?first ?others]] eqn:?
    | |- context [json_messages (text ?r)] =>
        destruct (json_messages (text r)) as [?e | ?data] eqn:?
    | |- context [json_message (text ?r)] =>
        destruct (json_message (text r)) as [?e | ?updated] eqn:?
    | |- context [json_any (text ?r)] =>
        destruct (json_any (text r)) as [?e | []] eqn:?
    | |- context [truthy ?v] => destruct (truthy v) eqn:?
    | |- context [(status ?r =? 204)%Z] => destruct (status r =? 204)%Z eqn:?
    end); cbn.

Ltac flatten_trace := rewrite ?map_app, <- ?app_assoc; cbn [map app].

Lemma truthy_default_param (arg dflt : jsval) :
  truthy arg = false -> truthy dflt = false ->
  truthy (default_param arg dflt) = false.
Proof. unfold default_param. destruct arg; cbn; congruence. Qed.

(** C1 (amended). A send of non-blank text clears the composer exactly
    when the session is there (active, or created on the way) and the chat
    POST is answered 2xx with a JSON body; it leaves the composer and the
    history alone, and shows the failure, when the creation or the chat
    POST fails (rejected, not 2xx, or a body that is not JSON).  Once the
    chat POST has succeeded the history is fetched for the session (of a
    truthy identifier): when that GET succeeds the history is the list it
    returned and no error is shown; when it fails the composer is cleared
    all the same, the history is the old one and the failure of the GET is
    shown. *)
Theorem send_reloads_history (w : World) :
  whitespace_only (chatInput (ui w)) = false ->
  let w' := after sendNewChatMessage w in
  (truthy (activeSessionId (ui w)) = false ->
   forall (creation : FetchResult) (net0 : Server),
     serve create_session_request (net w) = (creation, net0) ->
     failed creation = true ->
     chatInput (ui w') = chatInput (ui w) /\
     history (ui w') = history (ui w) /\
     error (ui w') <> "") /\
  (truthy (activeSessionId (ui w)) = false ->
   forall (res : Response) (net0 : Server) (e : Error),
     serve create_session_request (net w) = (Resolved res, net0) ->
     ok res = true ->
     json_session (text res) = SyntaxError e ->
     chatInput (ui w') = chatInput (ui w) /\
     history (ui w') = history (ui w) /\
     error (ui w') <> "") /\
  (forall (session : jsval) (net0 : Server) (chat : FetchResult) (net1 : Server),
     sends_to w session net0 ->
     serve (chat_request (chatInput (ui w)) session) net0 = (chat, net1) ->
     (failed chat = true ->
      chatInput (ui w') = chatInput (ui w) /\
      history (ui w') = history (ui w) /\
      error (ui w') <> "") /\
     (forall (res : Response) (e : Error),
        chat = Resolved res -> ok res = true ->
        json_any (text res) = SyntaxError e ->
        chatInput (ui w') = chatInput (ui w) /\
        history (ui w') = history (ui w) /\
        error (ui w') <> "") /\
     (forall res : Response,
        chat = Resolved res -> ok res = true ->
        json_any (text res) = Json tt ->
        chatInput (ui w') = "" /\
        (truthy session = true ->
         forall (reload : FetchResult) (net2 : Server),
           serve (list_messages_request session) net1 = (reload, net2) ->
           (forall (res2 : Response) (data : list Message.t),
              reload = Resolved res2 -> ok res2 = true ->
              json_messages (text res2) = Json data ->
              history (ui w') = data /\ error (ui w') = "") /\
           (failed reload = true ->
            history (ui w') = history (ui w) /\ error (ui w') <> "")))).
Proof.
  intros Htext w'. subst w'. unfold_requests.
  unfold sends_to, after, dispatch, sendNewChatMessage, fetchMessages.
  unfold_requests. unfold_monad. split; [|split].
  - intros Hnone creation net0 Hcreate Hfailed.
    destruct creation as [e | res]; cbn in Hfailed.
    + follow. repeat split. apply or_else_nonempty. discriminate.
    + apply negb_true_iff in Hfailed. follow. repeat split. discriminate.
  - intros Hnone res net0 e Hcreate Hok Hjson. follow. repeat split.
    apply or_else_nonempty. discriminate.
  - intros session net0 chat net1 Hsession Hchat.
    assert (Hdefault : truthy (default_param session (activeSessionId (ui w)))
                       = truthy session).
    { destruct (truthy session) eqn:Hs.
      - now rewrite default_param_truthy.
      - destruct Hsession as [(Hactive & -> & _) | (Hnone & _)]; [congruence|].
        now apply truthy_default_param. }
    destruct Hsession as
      [(Hactive & -> & ->) | (Hnone & res0 & created & Hc & Hok0 & Hj & ->)];
      (repeat apply conj;
       [ intros Hfailed; destruct chat as [e | res]; cbn in Hfailed;
         [ follow; repeat split; apply or_else_nonempty; discriminate
         | apply negb_true_iff in Hfailed; follow; repeat split; discriminate ]
       | intros res e -> Hok Hjson; follow; repeat split;
         apply or_else_nonempty; discriminate
       | intros res -> Hok Hjson; split;
         [ follow; rewrite ?Hdefault; any_answer; reflexivity
         | intros Hs reload net2 Hreload; follow; rewrite ?Hdefault, ?Hs; follow; split;
           [ intros res2 data -> Hok2 Hdata; follow; now split
           | intros Hfailed; destruct reload as [e | res2]; cbn in Hfailed;
             [ follow; split; [reflexivity|]; apply or_else_nonempty; discriminate
             | apply negb_true_iff in Hfailed; follow; split; [reflexivity|];
               discriminate ] ] ] ]).
Qed.

(** C2. A send of non-blank text with no active session starts with the
    POST that creates a session; when that succeeds the created session
    becomes the active one and the head of the session list, and the chat
    POST for that session follows.  In the scenario of the empty session
    list and the text "Hello", with a created session of identifier 1,
    exactly three requests go out (create, chat with message "Hello" and
    session 1, GET of the messages of session 1) and the page ends on
    session 1, that one session listed, the history the GET returned and an
    empty composer. *)
Theorem send_creates_session_first (w : World) :
  whitespace_only (chatInput (ui w)) = false ->
  truthy (activeSessionId (ui w)) = false ->
  let w' := after sendNewChatMessage w in
  (exists rest, requests w' = requests w ++ create_session_request :: rest) /\
  (forall (res : Response) (net0 : Server) (created : Session.t),
     serve create_session_request (net w) = (Resolved res, net0) ->
     ok res = true ->
     json_session (text res) = Json created ->
     activeSessionId (ui w') = Session.id created /\
     sessions (ui w') = created :: sessions (ui w) /\
     (exists rest,
        requests w' =
          requests w ++ create_session_request
            :: chat_request (chatInput (ui w)) (Session.id created) :: rest) /\
     (sessions (ui w) = [] ->
      chatInput (ui w) = "Hello" ->
      Session.id created = JNum 1 ->
      forall (res1 : Response) (net1 : Server) (res2 : Response) (net2 : Server)
             (data : list Message.t),
        serve (chat_request "Hello" (JNum 1)) net0 = (Resolved res1, net1) ->
        ok res1 = true ->
        json_any (text res1) = Json tt ->
        serve (list_messages_request (JNum 1)) net1 = (Resolved res2, net2) ->
        ok res2 = true ->
        json_messages (text res2) = Json data ->
        requests w' =
          requests w ++
            [mkRequest "POST" (API_BASE_URL ++ "/sessions/")
                       [("Content-Type", "application/json")] (Some []);
             mkRequest "POST" (API_BASE_URL ++ "/chat/")
                       [("Content-Type", "application/json")]
                       (Some [("message", JStr "Hello"); ("session", JNum 1)]);
             mkRequest "GET" (API_BASE_URL ++ "/messages/?session=1") [] None] /\
        activeSessionId (ui w') = JNum 1 /\
        sessions (ui w') = [created] /\
        history (ui w') = data /\
        chatInput (ui w') = "")).
Proof.
  intros Htext Hnone w'. subst w'. unfold_requests.
  unfold requests, after, dispatch, sendNewChatMessage, fetchMessages.
  unfold_monad. split.
  - follow. any_answer; flatten_trace; eexists; reflexivity.
  - intros res net0 created Hcreate Hok Hjson. repeat apply conj.
    + follow. any_answer; reflexivity.
    + follow. any_answer; reflexivity.
    + follow. any_answer; flatten_trace; eexists; reflexivity.
    + intros Hempty Hhello Hid res1 net1 res2 net2 data
             Hchat Hok1 Hjson1 Hreload Hok2 Hdata.
      cbn [to_string] in Hreload. follow. rewrite Hhello, Hid. follow.
      change (default_param (JNum 1) (activeSessionId (ui w))) with (JNum 1).
      follow. flatten_trace. rewrite Hempty. repeat split.
Qed.

(** C10. The create-then-send of a message is not atomic: when the
    session is created and the chat POST then fails (rejected, or not
    2xx), the new session stays at the head of the list and stays active,
    the composer text and the history are as before, and the failure of
    the chat POST is the error shown. *)
Theorem create_then_failed_chat (w : World) (res : Response) (net0 : Server)
        (created : Session.t) (chat : FetchResult) (net1 : Server) :
  whitespace_only (chatInput (ui w)) = false ->
  truthy (activeSessionId (ui w)) = false ->
  serve create_session_request (net w) = (Resolved res, net0) ->
  ok res = true ->
  json_session (text res) = Json created ->
  serve (chat_request (chatInput (ui w)) (Session.id created)) net0 = (chat, net1) ->
  failed chat = true ->
  let w' := after sendNewChatMessage w in
  sessions (ui w') = created :: sessions (ui w) /\
  activeSessionId (ui w') = Session.id created /\
  chatInput (ui w') = chatInput (ui w) /\
  history (ui w') = history (ui w) /\
  error (ui w') =
    match chat with
    | Rejected e => or_else (message e) "Failed to send chat message"
    | Resolved bad =>
        ("Chat request failed: " ++ num_to_string (status bad) ++ " "
           ++ statusText bad ++ " - " ++ text bad)%string
    end /\
  error (ui w') <> "" /\
  chatLoading (ui w') = false /\
  requests w' =
    requests w ++ [create_session_request;
                   chat_request (chatInput (ui w)) (Session.id created)].
Proof.
  intros Htext Hnone Hcreate Hok Hjson Hchat Hfailed w'. subst w'.
  unfold_requests. unfold requests, after, dispatch, sendNewChatMessage.
  unfold_monad. destruct chat as [e | bad]; cbn in Hfailed.
  - follow. flatten_trace. repeat split. apply or_else_nonempty. discriminate.
  - apply negb_true_iff in Hfailed. follow. flatten_trace. repeat split.
    discriminate.
Qed.

(** X23. Creating a session, loading the history of a session,
    sending, saving an edit and deleting a message each empty the error
    string before their first request: once past its guards, such an
    attempt issues at least one request, and all its requests go out with
    no error on screen.  Listing the sessions is different: its request
    goes out with the state as it was, and when it fails nothing of the
    state changes, the failure being a console line only. *)
Theorem attempts_clear_error_first (w : World) :
  error_cleared_first w (after (fun _ => handleCreateNewChat) w) /\
  (forall arg : jsval,
     truthy (default_param arg (activeSessionId (ui w))) = true ->
     error_cleared_first w (after (fun c => fetchMessages c arg) w)) /\
  (whitespace_only (chatInput (ui w)) = false ->
   error_cleared_first w (after sendNewChatMessage w)) /\
  (truthy (editingId (ui w)) = true ->
   whitespace_only (chatInput (ui w)) = false ->
   error_cleared_first w (after saveEditedMessage w)) /\
  (forall id : jsval,
     typeof id = "number" ->
     window_confirm "Delete this message?" = true ->
     error_cleared_first w (after (fun _ => handleDeleteMessage id) w)) /\
  (exists first later,
     trace (after fetchSessions w) = trace w ++ first :: later /\
     request first = list_sessions_request /\
     shown first = ui w) /\
  (forall (listing : FetchResult) (net' : Server),
     serve list_sessions_request (net w) = (listing, net') ->
     failed listing = true ->
     ui (after fetchSessions w) = ui w /\
     exists line, console (after fetchSessions w) = console w ++ [line]).
Proof.
  unfold error_cleared_first. unfold_requests. repeat apply conj.
  - unfold after, dispatch, handleCreateNewChat. unfold_monad.
    any_answer; flatten_trace; do 2 eexists; (split; [reflexivity|]);
      repeat constructor.
  - intros arg Harg. unfold after, dispatch, fetchMessages. unfold_monad.
    follow. any_answer; flatten_trace; do 2 eexists; (split; [reflexivity|]);
      repeat constructor.
  - intros Htext. unfold after, dispatch, sendNewChatMessage, fetchMessages.
    unfold_monad. follow.
    any_answer; flatten_trace; do 2 eexists; (split; [reflexivity|]);
      repeat constructor.
  - intros Hedit Htext. unfold after, dispatch, saveEditedMessage, fetchMessages.
    unfold_monad. follow.
    any_answer; flatten_trace; do 2 eexists; (split; [reflexivity|]);
      repeat constructor.
  - intros id Hid Hconfirm. unfold after, dispatch, handleDeleteMessage.
    unfold_monad. rewrite Hid. follow.
    any_answer; flatten_trace; do 2 eexists; (split; [reflexivity|]);
      repeat constructor.
  - unfold after, dispatch, fetchSessions, fetchMessages. unfold_monad.
    any_answer; flatten_trace; do 2 eexists; (split; [reflexivity|]); now split.
  - intros listing net' Hlist Hfailed.
    unfold after, dispatch, fetchSessions. unfold_monad.
    destruct listing as [e | res]; cbn in Hfailed.
    + follow. split; [reflexivity|]. eexists. reflexivity.
    + apply negb_true_iff in Hfailed. follow. split; [reflexivity|].
      eexists. reflexivity.
Qed.

End Properties.

(** * Concrete runs *)

(** ** Witnesses *)

Lemma blank_send_is_noop_witness :
  let w := demo_world (demo_typing "   ") [http_ok "reply"] in
  let u := demo_world (demo_typing unicode_blank) [http_ok "reply"] in
  whitespace_only (chatInput (ui w)) = true /\
  (dispatch sendNewChatMessage w = (Normal tt, w) /\
   dispatch handleSubmit w = (Normal tt, w)) /\
  whitespace_only (chatInput (ui u)) = true /\
  (dispatch sendNewChatMessage u = (Normal tt, u) /\
   dispatch handleSubmit u = (Normal tt, u)).
Proof.
  split; [reflexivity|]. split.
  - apply (@blank_send_is_noop demo). reflexivity.
  - split; [reflexivity|]. apply (@blank_send_is_noop demo). reflexivity.
Defined.

Lemma edit_mode_guards_witness :
  let w := demo_world demo_chatting [] in
  let blank := demo_world (demo_editing unicode_blank) [http_ok "message 7, edited"] in
  dispatch (fun _ => beginEditMessage (Some demo_answer)) w = (Normal tt, w) /\
  editingId (ui (after (fun _ => beginEditMessage (Some demo_question)) w)) = JNum 7 /\
  dispatch saveEditedMessage w = (Normal tt, w) /\
  dispatch saveEditedMessage blank = (Normal tt, blank) /\
  Message.id demo_question_edited = Message.id demo_question.
Proof.
  intros w blank. repeat apply conj.
  - apply (proj1 (@edit_mode_guards demo w demo_answer)). left. discriminate.
  - destruct (@edit_mode_guards demo w demo_question) as (_ & _ & Henter & _).
    unfold after. rewrite (Henter eq_refl eq_refl). reflexivity.
  - destruct (@edit_mode_guards demo w demo_question) as (_ & _ & _ & _ & Hsave & _).
    apply Hsave. left. reflexivity.
  - destruct (@edit_mode_guards demo blank demo_question)
      as (_ & _ & _ & _ & Hsave & _).
    apply Hsave. right. reflexivity.
  - destruct (@edit_mode_guards demo w demo_question)
      as (_ & _ & _ & _ & _ & _ & Hone & _).
    apply (Hone demo_question_edited eq_refl eq_refl). reflexivity.
Defined.

Lemma delete_session_success_witness :
  let w := demo_world demo_chatting [http_no_content] in
  let w' := after (fun c => deleteSessionOnClick c demo_session) w in
  sessions (ui w') = [] /\ activeSessionId (ui w') = JNull /\ history (ui w') = [].
Proof.
  intros w w'.
  destruct (@delete_session_success demo w demo_session
              (mkResponse 204 "No Content" "") [] eq_refl eq_refl
              (or_intror eq_refl)) as (Hlist & Hactive & _).
  destruct (Hactive eq_refl) as (Hpointer & Hhistory).
  repeat apply conj; assumption.
Defined.

Lemma create_session_success_witness :
  let w := demo_world (demo_editing "Hello aga") [http_ok "session 2"] in
  let w' := after (fun _ => handleCreateNewChat) w in
  sessions (ui w') = [demo_session_2; demo_session] /\
  activeSessionId (ui w') = JNum 2 /\
  history (ui w') = [] /\
  chatInput (ui w') = "".
Proof.
  intros w w'.
  destruct (@create_session_success demo w (mkResponse 200 "OK" "session 2") []
              demo_session_2 eq_refl eq_refl eq_refl)
    as (Hsessions & Hactive & Hhistory & Hinput & _).
  repeat apply conj; assumption.
Defined.

Lemma edit_then_failed_regenerate_witness :
  let w := demo_world (demo_editing "Hello again")
                      [http_ok "message 7, edited"; http_server_error] in
  let w' := after saveEditedMessage w in
  history (ui w') = [demo_question_edited; demo_answer] /\
  editingId (ui w') = JNull /\
  chatInput (ui w') = "" /\
  error (ui w') = "" /\
  console w' = [["Regenerate failed:"; "500"; "boom"]].
Proof.
  intros w w'.
  destruct (@edit_then_failed_regenerate demo w (http_ok "message 7, edited")
              [http_server_error] eq_refl eq_refl eq_refl) as (_ & Hregen).
  destruct (Hregen (mkResponse 200 "OK" "message 7, edited") demo_question_edited
              http_server_error [] eq_refl eq_refl eq_refl eq_refl eq_refl)
    as (Hhistory & Hpointer & _ & Hinput & Herror & _ & _ & Hconsole).
  repeat apply conj; assumption.
Defined.

Lemma reload_after_regenerate_witness :
  let w := demo_world (demo_editing "Hello again")
                      [http_ok "message 7, edited"; http_ok "regenerated";
                       http_ok "[message 7, message 9]"] in
  let w' := after saveEditedMessage w in
  map method (requests w') = ["PATCH"; "POST"; "GET"] /\
  history (ui w') = [demo_question_edited; demo_regenerated].
Proof.
  intros w w'.
  destruct (@reload_after_regenerate demo w (mkResponse 200 "OK" "message 7, edited")
              [http_ok "regenerated"; http_ok "[message 7, message 9]"]
              demo_question_edited (http_ok "regenerated")
              [http_ok "[message 7, message 9]"]
              eq_refl eq_refl eq_refl eq_refl eq_refl eq_refl) as (_ & _ & Hreload).
  destruct (Hreload eq_refl eq_refl (http_ok "[message 7, message 9]") [] eq_refl)
    as (Hrequests & Hhistory & _).
  split.
  - fold w' in Hrequests. rewrite Hrequests. reflexivity.
  - exact (Hhistory (mkResponse 200 "OK" "[message 7, message 9]")
             [demo_question_edited; demo_regenerated] eq_refl eq_refl eq_refl).
Defined.

Lemma send_reloads_history_witness :
  let w := demo_world (demo_typing "Hello") [http_ok "reply"; http_ok "[message 7, message 8]"] in
  let w' := after sendNewChatMessage w in
  chatInput (ui w') = "" /\
  history (ui w') = [demo_question; demo_answer] /\
  error (ui w') = "".
Proof.
  intros w w'.
  destruct (@send_reloads_history demo w eq_refl) as (_ & _ & Hsend).
  destruct (Hsend (JNum 1) [http_ok "reply"; http_ok "[message 7, message 8]"]
              (http_ok "reply") [http_ok "[message 7, message 8]"]
              (or_introl (conj eq_refl (conj eq_refl eq_refl))) eq_refl)
    as (_ & _ & Hok).
  destruct (Hok (mkResponse 200 "OK" "reply") eq_refl eq_refl eq_refl)
    as (Hinput & Hreload).
  destruct (Hreload eq_refl (http_ok "[message 7, message 8]") [] eq_refl)
    as (Hhistory & _).
  destruct (Hhistory (mkResponse 200 "OK" "[message 7, message 8]")
              [demo_question; demo_answer] eq_refl eq_refl eq_refl).
  repeat apply conj; assumption.
Defined.

Lemma send_creates_session_first_witness :
  let w := demo_world (demo_fresh "Hello")
                      [http_ok "session 1"; http_ok "reply";
                       http_ok "[message 7, message 8]"] in
  let w' := after sendNewChatMessage w in
  map (fun r => (method r, url r, body r)) (requests w') =
    [("POST", "http://localhost:8000/api/sessions/", Some []);
     ("POST", "http://localhost:8000/api/chat/",
      Some [("message", JStr "Hello"); ("session", JNum 1)]);
     ("GET", "http://localhost:8000/api/messages/?session=1", None)] /\
  activeSessionId (ui w') = JNum 1 /\
  sessions (ui w') = [demo_session] /\
  history (ui w') = [demo_question; demo_answer] /\
  chatInput (ui w') = "".
Proof.
  intros w w'.
  destruct (@send_creates_session_first demo w eq_refl eq_refl) as (_ & Hcreated).
  destruct (Hcreated (mkResponse 200 "OK" "session 1")
              [http_ok "reply"; http_ok "[message 7, message 8]"]
              demo_session eq_refl eq_refl eq_refl) as (_ & _ & _ & Hscenario).
  destruct (Hscenario eq_refl eq_refl eq_refl
              (mkResponse 200 "OK" "reply") [http_ok "[message 7, message 8]"]
              (mkResponse 200 "OK" "[message 7, message 8]") []
              [demo_question; demo_answer]
              eq_refl eq_refl eq_refl eq_refl eq_refl eq_refl)
    as (Hrequests & Hactive & Hsessions & Hhistory & Hinput).
  repeat apply conj; try assumption.
  fold w' in Hrequests. rewrite Hrequests. reflexivity.
Defined.

Lemma create_then_failed_chat_witness :
  let w := demo_world (demo_fresh "Hello") [http_ok "session 1"; http_server_error] in
  let w' := after sendNewChatMessage w in
  sessions (ui w') = [demo_session] /\
  activeSessionId (ui w') = JNum 1 /\
  chatInput (ui w') = "Hello" /\
  history (ui w') = [] /\
  error (ui w') = "Chat request failed: 500 Internal Server Error - boom".
Proof.
  intros w w'.
  destruct (@create_then_failed_chat demo w (mkResponse 200 "OK" "session 1")
              [http_server_error] demo_session http_server_error []
              eq_refl eq_refl eq_refl eq_refl eq_refl eq_refl eq_refl)
    as (Hsessions & Hactive & Hinput & Hhistory & Herror & _).
  repeat apply conj; assumption.
Defined.

Lemma attempts_clear_error_first_witness :
  let w := demo_world (with_error "Failed to fetch messages: 500" (demo_typing "Hello"))
                      [http_ok "reply"; http_ok "[message 7, message 8]"] in
  error_cleared_first w (after sendNewChatMessage w) /\
  error_cleared_first w (after (fun _ => handleCreateNewChat) w).
Proof.
  intros w.
  destruct (@attempts_clear_error_first demo w) as (Hcreate & _ & Hsend & _).
  split; [exact (Hsend eq_refl) | exact Hcreate].
Defined.

(** ** Counterexamples *)

(** C1, as stated, fails: the chat POST is answered 200 and the GET of the
    messages 500.  The composer is cleared, though the operation ends on an
    error and the history on screen is not a list the server returned. *)
Lemma send_clears_composer_without_reload :
  let w := demo_world (demo_typing "Thanks") [http_ok "reply"; http_server_error] in
  let w' := after sendNewChatMessage w in
  chatInput (ui w) = "Thanks" /\
  chatInput (ui w') = "" /\
  error (ui w') = "Failed to fetch messages: 500" /\
  history (ui w') = history (ui w) /\
  ~ history_from_server w'.
Proof.
  repeat split.
  intros (ev & res & Hin & Hget & Hanswer & Hok & _).
  vm_compute in Hin. destruct Hin as [<- | [<- | []]].
  - vm_compute in Hget. discriminate Hget.
  - vm_compute in Hanswer. injection Hanswer as <-. discriminate Hok.
Qed.

(** C4, as stated, fails: the PATCH is answered 200 and the regenerate
    request 500.  No GET follows: the answer the server held ready for it
    is never asked for, and the history is the spliced local one. *)
Lemma no_reload_after_failed_regenerate :
  let w := demo_world (demo_editing "Hello again")
                      [http_ok "message 7, edited"; http_server_error;
                       http_ok "[message 7, message 9]"] in
  let w' := after saveEditedMessage w in
  map method (requests w') = ["PATCH"; "POST"] /\
  ~ In "GET" (map method (requests w')) /\
  net w' = [http_ok "[message 7, message 9]"] /\
  history (ui w') = [demo_question_edited; demo_answer] /\
  history (ui w') <> [demo_question_edited; demo_regenerated].
Proof.
  repeat split.
  - vm_compute. intros [E | [E | []]]; discriminate E.
  - vm_compute. intros E. discriminate E.
Qed.

(** ** Defects

    Runs on which the code departs from the claim. *)

(** C5. Creating a session prepends it, makes it active and empties the
    history and the composer text, but it does not reset the edit pointer,
    which the claim counts in the composer state.  Message 7 of session 1
    is being edited when "+ New" creates session 2: the pointer still
    names message 7 and the banner stays.  The text typed and submitted
    next is then saved into message 7 of the old session (PATCH, then
    regenerate), and the reload puts the messages of session 1 on screen
    under the active session 2. *)
Lemma new_chat_keeps_edit_mode :
  let w := demo_world demo_chatting
                      [http_ok "session 2"; http_ok "message 7, edited";
                       http_ok "regenerated"; http_ok "[message 7, message 9]"] in
  let created := play [ClickEdit demo_question; ClickNew] w in
  let saved := play [ChangeInput "Hello again"; SubmitForm] created in
  sessions (ui created) = [demo_session_2; demo_session] /\
  activeSessionId (ui created) = JNum 2 /\
  history (ui created) = [] /\
  chatInput (ui created) = "" /\
  editingId (ui created) = JNum 7 /\
  showsEditBanner (ui created) = true /\
  map (fun r => (method r, url r)) (requests saved) =
    [("POST", "http://localhost:8000/api/sessions/");
     ("PATCH", "http://localhost:8000/api/messages/7/");
     ("POST", "http://localhost:8000/api/messages/7/regenerate/");
     ("GET", "http://localhost:8000/api/messages/?session=1")] /\
  activeSessionId (ui saved) = JNum 2 /\
  history (ui saved) = [demo_question_edited; demo_regenerated].
Proof. vm_compute. repeat split. Qed.

(** C7. The deletion of a session shows its failures in the error string
    but, unlike the other handlers that do, does not empty that string
    before its request.  The page mounts and lists session 1, and the load
    of its messages fails, which puts an error on screen; the user then
    deletes the session and the server accepts.  The DELETE went out under
    that error, and the error is still shown once the session is gone. *)
Lemma delete_session_leaves_stale_error :
  let w := demo_world initial_state
                      [http_ok "[session 1]"; http_server_error; http_no_content] in
  let mounted := play [Mount] w in
  let deleted := play [ClickDeleteSession demo_session] mounted in
  sessions (ui mounted) = [demo_session] /\
  error (ui mounted) = "Failed to fetch messages: 500" /\
  map (fun ev => (method (request ev), error (shown ev))) (trace deleted) =
    [("GET", ""); ("GET", ""); ("DELETE", "Failed to fetch messages: 500")] /\
  sessions (ui deleted) = [] /\
  error (ui deleted) = "Failed to fetch messages: 500" /\
  ~ error_cleared_first mounted deleted.
Proof.
  repeat split.
  intros (first & later & Htrace & Hcleared).
  vm_compute in Htrace. injection Htrace as <- <-.
  inversion Hcleared as [| ? ? Hfirst _]. vm_compute in Hfirst.
  discriminate Hfirst.
Qed.

(** * More of the component *)

Lemma strict_eq_refl (v : jsval) : strict_eq v v = true.
Proof. now apply strict_eq_spec. Qed.

Lemma strict_eq_false (a b : jsval) : strict_eq a b = false <-> a <> b.
Proof.
  split.
  - intros E Heq. apply strict_eq_spec in Heq. congruence.
  - intros Hne. destruct (strict_eq a b) eqn:E; [|reflexivity].
    apply strict_eq_spec in E. contradiction.
Qed.

Lemma failed_not_no_content (res : Response) :
  ok res = false -> (status res =? 204)%Z = false.
Proof.
  intros Hok. destruct (status res =? 204)%Z eqn:E; [|reflexivity].
  apply Z.eqb_eq in E. apply ok_no_content in E. congruence.
Qed.

Lemma filter_all {A} (keep : A -> bool) (l : list A) :
  Forall (fun x => keep x = true) l -> filter keep l = l.
Proof.
  induction 1 as [|x l Hx _ IH]; cbn; [reflexivity|]. now rewrite Hx, IH.
Qed.

(** Split on every test and every answer still open. *)
Ltac explore :=
  repeat (cbn;
    match goal with
    | |- context [serve ?r ?n] => destruct (serve r n) as [[?e | ?res] ?net] eqn:?
    | |- context [json_session (text ?r)] =>
        destruct (json_session (text r)) as [?e | ?created] eqn:?
    | |- context [json_sessions (text ?r)] =>
        destruct (json_sessions (text r)) as [?e | [| ?first ?others]] eqn:?
    | |- context [json_messages (text ?r)] =>
        destruct (json_messages (text r)) as [?e | ?data] eqn:?
    | |- context [json_message (text ?r)] =>
        destruct (json_message (text r)) as [?e | ?updated] eqn:?
    | |- context [json_any (text ?r)] =>
        destruct (json_any (text r)) as [?e | []] eqn:?
    | |- context [if ?b then _ else _] => destruct b eqn:?
    end); cbn.

Ltac tidy_trace := rewrite ?map_app, <- ?app_assoc; cbn [map app].

(** The three facts about a reload of the history, for each answer. *)
Ltac reload_cases reload :=
  destruct reload as [?e | ?res2];
  (repeat apply conj;
   [ explore; tidy_trace; reflexivity
   | intros ? ? Heq ? ?; try discriminate Heq; injection Heq as <-; follow;
     now split
   | intros Hfailed; cbn in Hfailed; try apply negb_true_iff in Hfailed; follow;
     split; [reflexivity | first [discriminate | apply or_else_nonempty; discriminate]] ]).

Section Extras.
Context `{Environment}.

(** X1. A confirmed deletion of the message of a numeric identifier that
    the server accepts (2xx, or 204) removes from the history the messages
    of that identifier and no other, keeping the order of the rest; the
    sessions, the active session, the composer and the edit pointer stay
    as they were (also when the deleted message is the one being edited),
    no error is left on screen and one DELETE went out. *)
Theorem delete_message_success (w : World) (id : jsval) (res : Response)
        (net' : Server) :
  typeof id = "number" ->
  window_confirm "Delete this message?" = true ->
  serve (delete_message_request id) (net w) = (Resolved res, net') ->
  ok res = true \/ status res = 204%Z ->
  let w' := after (fun _ => handleDeleteMessage id) w in
  (forall m : Message.t,
     In m (history (ui w')) <-> In m (history (ui w)) /\ Message.id m <> id) /\
  history (ui w') =
    filter (fun m => negb (strict_eq (Message.id m) id)) (history (ui w)) /\
  sessions (ui w') = sessions (ui w) /\
  activeSessionId (ui w') = activeSessionId (ui w) /\
  chatInput (ui w') = chatInput (ui w) /\
  editingId (ui w') = editingId (ui w) /\
  error (ui w') = "" /\
  requests w' = requests w ++ [delete_message_request id].
Proof.
  intros Hid Hconfirm Hserve Hres w'. subst w'.
  assert (Hok : ok res = true) by (destruct Hres; auto using ok_no_content).
  unfold_requests. unfold requests, after, dispatch, handleDeleteMessage.
  unfold_monad. rewrite Hid. follow. tidy_trace.
  split; [|repeat apply conj; reflexivity].
  intros m. rewrite filter_In, negb_true_iff, strict_eq_false. reflexivity.
Qed.

(** X2. The deletion of a message does nothing at all, and sends nothing,
    when the identifier is not a number or when the user declines the
    confirmation. *)
Theorem delete_message_guards (w : World) (id : jsval) :
  typeof id <> "number" \/ window_confirm "Delete this message?" = false ->
  dispatch (fun _ => handleDeleteMessage id) w = (Normal tt, w).
Proof.
  intros Hguard. unfold dispatch, handleDeleteMessage.
  destruct (typeof id =? "number") eqn:Hid; [|reflexivity].
  destruct Hguard as [Hno | Hdeclined].
  - apply String.eqb_eq in Hid. contradiction.
  - cbn. now rewrite Hdeclined.
Qed.

(** X3. When the DELETE of a message fails (rejected, or not 2xx) the
    history keeps the message, nothing but the error string changes, and
    the error shown is the rejection's message (or the fallback text) or
    names the status. *)
Theorem delete_message_failure (w : World) (id : jsval) (answer : FetchResult)
        (net' : Server) :
  typeof id = "number" ->
  window_confirm "Delete this message?" = true ->
  serve (delete_message_request id) (net w) = (answer, net') ->
  failed answer = true ->
  let w' := after (fun _ => handleDeleteMessage id) w in
  ui w' =
    with_error
      match answer with
      | Rejected e => or_else (message e) "Failed to delete message"
      | Resolved res =>
          ("Failed to delete message: " ++ num_to_string (status res))%string
      end (ui w) /\
  error (ui w') <> "" /\
  history (ui w') = history (ui w).
Proof.
  intros Hid Hconfirm Hserve Hfailed w'. subst w'. unfold_requests.
  unfold after, dispatch, handleDeleteMessage. unfold_monad. rewrite Hid.
  destruct answer as [e | res]; cbn in Hfailed.
  - follow. repeat split. apply or_else_nonempty. discriminate.
  - apply negb_true_iff in Hfailed. follow.
    rewrite (failed_not_no_content _ Hfailed). cbn. repeat split. discriminate.
Qed.

(** X4. Loading the history never throws, whatever the server does, and
    touches only the history, the error string and the loading flag: the
    sessions, the active session, the composer, the edit pointer and the
    console are as before.  For a falsy session (after the default) it does
    nothing; otherwise it issues exactly one GET and ends with the loading
    flag down. *)
Theorem fetchMessages_contained (c : State) (arg : jsval) (w : World) :
  exists w',
    fetchMessages c arg w = (Normal tt, w') /\
    sessions (ui w') = sessions (ui w) /\
    activeSessionId (ui w') = activeSessionId (ui w) /\
    chatInput (ui w') = chatInput (ui w) /\
    chatLoading (ui w') = chatLoading (ui w) /\
    editingId (ui w') = editingId (ui w) /\
    editingOriginalText (ui w') = editingOriginalText (ui w) /\
    console w' = console w /\
    (truthy (default_param arg (activeSessionId c)) = false -> w' = w) /\
    (truthy (default_param arg (activeSessionId c)) = true ->
     loading (ui w') = false /\
     requests w' =
       requests w ++ [list_messages_request (default_param arg (activeSessionId c))]).
Proof.
  unfold_requests. unfold requests, fetchMessages. unfold_monad.
  destruct (truthy (default_param arg (activeSessionId c))) eqn:Hsession; cbn.
  - explore; eexists; (split; [reflexivity|]); tidy_trace;
      repeat apply conj; try reflexivity; intros; try discriminate;
      (split; [reflexivity | cbn; rewrite map_app; reflexivity]).
  - exists w. repeat apply conj; try reflexivity. intros; discriminate.
Qed.


(** X5. When the listing of the sessions succeeds, the session list is
    the list the server returned.  With a session already active, or an
    empty list, nothing else changes and nothing else is requested.  With
    no active session the first session of the list becomes the active one
    and, its identifier being truthy, its messages are fetched: they become
    the history when that GET succeeds, and when it fails the old history
    stays and the failure is shown. *)
Theorem mount_lists_and_selects (w : World) (res : Response) (net1 : Server)
        (data : list Session.t) :
  serve list_sessions_request (net w) = (Resolved res, net1) ->
  ok res = true ->
  json_sessions (text res) = Json data ->
  let w' := after fetchSessions w in
  sessions (ui w') = data /\
  (truthy (activeSessionId (ui w)) = true \/ data = [] ->
   ui w' = with_sessions (fun _ => data) (ui w) /\
   requests w' = requests w ++ [list_sessions_request]) /\
  (truthy (activeSessionId (ui w)) = false ->
   forall (first : Session.t) (rest : list Session.t),
     data = first :: rest ->
     activeSessionId (ui w') = Session.id first /\
     (truthy (Session.id first) = false ->
      history (ui w') = history (ui w) /\
      requests w' = requests w ++ [list_sessions_request]) /\
     (truthy (Session.id first) = true ->
      forall (reload : FetchResult) (net2 : Server),
        serve (list_messages_request (Session.id first)) net1 = (reload, net2) ->
        requests w' =
          requests w ++ [list_sessions_request;
                         list_messages_request (Session.id first)] /\
        (forall (res2 : Response) (msgs : list Message.t),
           reload = Resolved res2 -> ok res2 = true ->
           json_messages (text res2) = Json msgs ->
           history (ui w') = msgs /\ error (ui w') = "") /\
        (failed reload = true ->
         history (ui w') = history (ui w) /\ error (ui w') <> ""))).
Proof.
  intros Hlist Hok Hdata w'. subst w'. unfold_requests.
  unfold requests, after, dispatch, fetchSessions, fetchMessages. unfold_monad.
  repeat apply conj.
  - follow. destruct data; explore; reflexivity.
  - intros [Hactive | ->]; follow.
    + destruct data; cbn; rewrite map_app; now split.
    + rewrite map_app. now split.
  - intros Hnone first rest ->. repeat apply conj.
    + follow. explore; reflexivity.
    + intros Hfalsy. follow.
      rewrite (truthy_default_param _ _ Hfalsy Hnone). cbn.
      rewrite map_app. now split.
    + intros Htruthy reload net2 Hreload. follow. reload_cases reload.
Qed.

(** X6. A click on a session row makes that session the active one
    whatever happens next, and leaves the session list, the composer and
    the edit pointer alone.  Its messages become the history when the GET
    succeeds; when the GET fails the messages of the session shown before
    stay on screen under the new active session, with the failure shown.
    Nothing is fetched when the identifier is falsy after the default of
    [fetchMessages]: that is for [null], [false], 0 and the empty string,
    and for [undefined] when no session was active; for [undefined] with a
    session active, the default makes it fetch the messages of that
    earlier session. *)
Theorem select_session (w : World) (s : Session.t) :
  let w' := after (fun c => selectSessionOnClick c s) w in
  activeSessionId (ui w') = Session.id s /\
  isActive (ui w') s = true /\
  sessions (ui w') = sessions (ui w) /\
  chatInput (ui w') = chatInput (ui w) /\
  editingId (ui w') = editingId (ui w) /\
  (truthy (default_param (Session.id s) (activeSessionId (ui w))) = false ->
   ui w' = with_activeSessionId (Session.id s) (ui w) /\
   requests w' = requests w) /\
  (truthy (Session.id s) = true ->
   forall (reload : FetchResult) (net' : Server),
     serve (list_messages_request (Session.id s)) (net w) = (reload, net') ->
     requests w' = requests w ++ [list_messages_request (Session.id s)] /\
     (forall (res : Response) (msgs : list Message.t),
        reload = Resolved res -> ok res = true ->
        json_messages (text res) = Json msgs ->
        history (ui w') = msgs /\ error (ui w') = "") /\
     (failed reload = true ->
      history (ui w') = history (ui w) /\ error (ui w') <> "")) /\
  (truthy (Session.id s) = false -> Session.id s <> JUndefined ->
   ui w' = with_activeSessionId (Session.id s) (ui w) /\
   requests w' = requests w) /\
  (Session.id s = JUndefined -> truthy (activeSessionId (ui w)) = false ->
   ui w' = with_activeSessionId JUndefined (ui w) /\
   requests w' = requests w) /\
  (Session.id s = JUndefined -> truthy (activeSessionId (ui w)) = true ->
   activeSessionId (ui w') = JUndefined /\
   requests w' = requests w ++ [list_messages_request (activeSessionId (ui w))]).
Proof.
  intros w'. subst w'. unfold_requests. unfold isActive.
  unfold requests, after, dispatch, selectSessionOnClick, fetchMessages.
  unfold_monad. repeat apply conj.
  - explore; reflexivity.
  - explore; apply strict_eq_refl.
  - explore; reflexivity.
  - explore; reflexivity.
  - explore; reflexivity.
  - intros Hfalsy. follow. now split.
  - intros Htruthy reload net' Hreload. follow. reload_cases reload.
  - intros Hfalsy Hdefined.
    assert (Hdefault : truthy (default_param (Session.id s) (activeSessionId (ui w)))
                       = false)
      by (unfold default_param; destruct (Session.id s); cbn in *; congruence).
    follow. now split.
  - intros -> Hnone.
    change (default_param JUndefined (activeSessionId (ui w)))
      with (activeSessionId (ui w)).
    follow. now split.
  - intros -> Hactive.
    change (default_param JUndefined (activeSessionId (ui w)))
      with (activeSessionId (ui w)).
    follow. split; explore; tidy_trace; reflexivity.
Qed.

(** X7. The deletion of a session does nothing when the user declines
    the confirmation.  When it is confirmed and the DELETE fails (rejected,
    or not 2xx), the session stays in the list, the active session and the
    history are kept, and the failure is both shown and written to the
    console. *)
Theorem delete_session_refused (w : World) (s : Session.t) :
  (window_confirm "Delete this chat and its messages?" = false ->
   dispatch (fun c => deleteSessionOnClick c s) w = (Normal tt, w)) /\
  (window_confirm "Delete this chat and its messages?" = true ->
   forall (answer : FetchResult) (net' : Server),
     serve (delete_session_request (Session.id s)) (net w) = (answer, net') ->
     failed answer = true ->
     let w' := after (fun c => deleteSessionOnClick c s) w in
     let thrown :=
       match answer with
       | Rejected e => message e
       | Resolved res =>
           ("Failed to delete session: " ++ num_to_string (status res) ++ " "
              ++ statusText res ++ " - " ++ text res)%string
       end in
     ui w' = with_error (or_else thrown "Failed to delete chat session") (ui w) /\
     error (ui w') <> "" /\
     console w' = console w ++ [[thrown]] /\
     requests w' = requests w ++ [delete_session_request (Session.id s)]).
Proof.
  split.
  - intros Hdeclined. unfold dispatch, deleteSessionOnClick. now rewrite Hdeclined.
  - intros Hconfirm answer net' Hserve Hfailed w' thrown. subst w' thrown.
    unfold_requests. unfold requests, after, dispatch, deleteSessionOnClick.
    unfold_monad. destruct answer as [e | res]; cbn in Hfailed.
    + follow. rewrite map_app. repeat split. apply or_else_nonempty. discriminate.
    + apply negb_true_iff in Hfailed. follow.
      rewrite (failed_not_no_content _ Hfailed). cbn. rewrite map_app.
      repeat split. discriminate.
Qed.

(** X8. When the creation of a session fails (rejected, not 2xx, or a
    2xx body that is not JSON) nothing but the error string changes: the
    session list, the active session, the history and the composer are
    kept, the failure is shown, and one request went out. *)
Theorem create_session_failure (w : World) (answer : FetchResult) (net' : Server) :
  serve create_session_request (net w) = (answer, net') ->
  failed answer = true \/
  (exists (res : Response) (e : Error),
     answer = Resolved res /\ ok res = true /\
     json_session (text res) = SyntaxError e) ->
  let w' := after (fun _ => handleCreateNewChat) w in
  ui w' = with_error (error (ui w')) (ui w) /\
  error (ui w') <> "" /\
  requests w' = requests w ++ [create_session_request].
Proof.
  intros Hserve Hfailure w'. subst w'. unfold_requests.
  unfold requests, after, dispatch, handleCreateNewChat. unfold_monad.
  destruct Hfailure as [Hfailed | (res & e & -> & Hok & Hjson)].
  - destruct answer as [e | res]; cbn in Hfailed.
    + follow. rewrite map_app. repeat split. apply or_else_nonempty. discriminate.
    + apply negb_true_iff in Hfailed. follow. rewrite map_app. repeat split.
      discriminate.
  - follow. rewrite map_app. repeat split. apply or_else_nonempty. discriminate.
Qed.

(** X9. Creating a session and deleting it again brings the session list
    back to what it was, provided the new identifier was not in use; the
    page ends with no active session, an empty history and an empty
    composer. *)
Theorem create_then_delete_session (w : World) (res : Response) (net1 : Server)
        (created : Session.t) (res2 : Response) (net2 : Server) :
  serve create_session_request (net w) = (Resolved res, net1) ->
  ok res = true ->
  json_session (text res) = Json created ->
  window_confirm "Delete this chat and its messages?" = true ->
  serve (delete_session_request (Session.id created)) net1 = (Resolved res2, net2) ->
  ok res2 = true \/ status res2 = 204%Z ->
  Forall (fun s => Session.id s <> Session.id created) (sessions (ui w)) ->
  let w' := play [ClickNew; ClickDeleteSession created] w in
  sessions (ui w') = sessions (ui w) /\
  activeSessionId (ui w') = JNull /\
  history (ui w') = [] /\
  chatInput (ui w') = "".
Proof.
  intros Hcreate Hok Hjson Hconfirm Hdelete Hres Hfresh w'. subst w'.
  assert (Hok2 : ok res2 = true) by (destruct Hres; auto using ok_no_content).
  unfold_requests.
  unfold play, handler, after, dispatch, handleCreateNewChat, deleteSessionOnClick.
  unfold_monad. follow. rewrite !strict_eq_refl. cbn.
  repeat split. rewrite strict_eq_refl. cbn. apply filter_all.
  eapply Forall_impl; [|exact Hfresh]. cbn. intros s Hne.
  apply negb_true_iff. now apply strict_eq_false.
Qed.


(** X10. Once the PATCH of an edit has succeeded, the page leaves edit
    mode whatever the regenerate request and the reload then do: the edit
    pointer is [null], the banner gone, the composer empty and the submit
    button enabled again; the session list and the active session are
    untouched. *)
Theorem saved_edit_leaves_edit_mode (w : World) (res : Response) (net1 : Server)
        (updated : Message.t) :
  truthy (editingId (ui w)) = true ->
  whitespace_only (chatInput (ui w)) = false ->
  serve (update_message_request (editingId (ui w)) (chatInput (ui w))) (net w)
    = (Resolved res, net1) ->
  ok res = true ->
  json_message (text res) = Json updated ->
  let w' := after saveEditedMessage w in
  editingId (ui w') = JNull /\
  editingOriginalText (ui w') = "" /\
  chatInput (ui w') = "" /\
  showsEditBanner (ui w') = false /\
  submitDisabled (ui w') = false /\
  sessions (ui w') = sessions (ui w) /\
  activeSessionId (ui w') = activeSessionId (ui w).
Proof.
  intros Hedit Htext Hpatch Hok Hjson w'. subst w'. unfold_requests.
  unfold showsEditBanner, submitDisabled.
  unfold after, dispatch, saveEditedMessage, fetchMessages. unfold_monad.
  follow. explore; repeat split.
Qed.

(** X11. A submit of non-blank text, be it a send or an edit-save, keeps
    the submit button disabled for as long as it has a request in flight
    (every request it issues goes out with [chatLoading] up, and there is
    at least one), and enables it again at the end, whatever the server
    answers. *)
Theorem submit_disabled_while_in_flight (w : World) :
  whitespace_only (chatInput (ui w)) = false ->
  let w' := after handleSubmit w in
  (exists first later,
     trace w' = trace w ++ first :: later /\
     Forall (fun ev => submitDisabled (shown ev) = true) (first :: later)) /\
  submitDisabled (ui w') = false.
Proof.
  intros Htext w'. subst w'. unfold submitDisabled.
  unfold after, dispatch, handleSubmit, saveEditedMessage, sendNewChatMessage,
    fetchMessages. unfold_monad.
  destruct (truthy (editingId (ui w))) eqn:Hedit; follow;
    explore; (split; [|reflexivity]); rewrite <- ?app_assoc; cbn [app];
    do 2 eexists; (split; [reflexivity|]); repeat constructor.
Qed.

Lemma number_is_num (v : jsval) : typeof v = "number" -> exists n, v = JNum n.
Proof. destruct v; cbn; try discriminate. intros _. now eexists. Qed.

(** X12. The edit pointer is only ever [null] or a number: no move of
    the user, whatever the server answers, takes the page out of such a
    state. *)
Theorem edit_pointer_stays_ok (moves : list Action) (w : World) :
  edit_pointer_ok (ui w) -> edit_pointer_ok (ui (play moves w)).
Proof.
  revert w. induction moves as [|a rest IH]; intros w Hw; [exact Hw|].
  cbn [play]. apply IH. clear IH. unfold edit_pointer_ok in *.
  unfold after, dispatch.
  destruct a; unfold handler, fetchSessions, handleCreateNewChat,
    selectSessionOnClick, deleteSessionOnClick, beginEditMessage,
    handleDeleteMessage, onChangeChatInput, cancelEdit, handleSubmit,
    saveEditedMessage, sendNewChatMessage, fetchMessages; unfold_monad;
    try (explore; first [exact Hw | left; reflexivity]).
  destruct (Message.role m =? "user"); cbn; [|exact Hw].
  destruct (typeof (Message.id m) =? "number") eqn:Hid; cbn; [|exact Hw].
  right. now apply String.eqb_eq.
Qed.

(** X13. No handler lets an exception escape: every move ends normally,
    all the failures of the network and of the decoding being caught on
    the way. *)
Theorem handlers_never_throw (a : Action) (w : World) :
  exists w', dispatch (handler a) w = (Normal tt, w').
Proof.
  unfold dispatch.
  destruct a; unfold handler, fetchSessions, handleCreateNewChat,
    selectSessionOnClick, deleteSessionOnClick, beginEditMessage,
    handleDeleteMessage, onChangeChatInput, cancelEdit, handleSubmit,
    saveEditedMessage, sendNewChatMessage, fetchMessages; unfold_monad;
    explore; eexists; reflexivity.
Qed.

(** X14. No sequence of moves leaves the page busy: when neither busy
    flag is up before, neither is up after, whatever the server answers. *)
Theorem page_stays_idle (moves : list Action) (w : World) :
  idle (ui w) -> idle (ui (play moves w)).
Proof.
  revert w. induction moves as [|a rest IH]; intros w Hw; [exact Hw|].
  cbn [play]. apply IH. clear IH. unfold idle in *. destruct Hw as [Hl Hc].
  unfold after, dispatch.
  destruct a; unfold handler, fetchSessions, handleCreateNewChat,
    selectSessionOnClick, deleteSessionOnClick, beginEditMessage,
    handleDeleteMessage, onChangeChatInput, cancelEdit, handleSubmit,
    saveEditedMessage, sendNewChatMessage, fetchMessages; unfold_monad;
    explore; split; first [reflexivity | assumption].
Qed.

(** X15. The label of a session row is its title when it has a non-empty
    one, and otherwise "Chat #" followed by its identifier; it is never
    empty, so the last alternative of the source, "Untitled chat", is
    never the one taken. *)
Theorem sessionLabel_cases (s : Session.t) :
  sessionLabel s =
    match Session.title s with
    | Some (String ch rest) => String ch rest
    | _ => ("Chat #" ++ to_string (Session.id s))%string
    end /\
  sessionLabel s <> "".
Proof.
  unfold sessionLabel. destruct (Session.title s) as [[|ch rest] |];
    (split; [reflexivity | discriminate]).
Qed.

(** X16. A message whose Edit and Delete buttons are rendered passes the
    guards of both handlers: Edit loads its text into the composer and
    stores its identifier, and a confirmed Delete sends the DELETE.  The
    page is in edit mode afterwards (banner shown, submit saving the edit)
    exactly when that identifier is not 0; for the identifier 0, falsy,
    the submit sends the loaded text as a new chat message. *)
Theorem rendered_buttons_pass_guards (w : World) (m : Message.t) :
  showsMessageActions m = true ->
  let w' := after (handler (ClickEdit m)) w in
  ui w' =
    with_chatInput (Message.text m)
      (with_editingOriginalText (Message.text m)
         (with_editingId (Message.id m) (ui w))) /\
  (Message.id m <> JNum 0 ->
   showsEditBanner (ui w') = true /\
   dispatch handleSubmit w' = dispatch saveEditedMessage w') /\
  (Message.id m = JNum 0 ->
   showsEditBanner (ui w') = false /\
   dispatch handleSubmit w' = dispatch sendNewChatMessage w' /\
   dispatch saveEditedMessage w' = (Normal tt, w')) /\
  (window_confirm "Delete this message?" = true ->
   requests (after (handler (ClickDeleteMessage m)) w) =
     requests w ++ [delete_message_request (Message.id m)]).
Proof.
  intros Hshown w'. subst w'. unfold showsMessageActions in Hshown.
  apply andb_prop in Hshown as [Hrole Hid].
  assert (Hnum : exists n, Message.id m = JNum n)
    by (apply number_is_num; now apply String.eqb_eq).
  destruct Hnum as [n Hn]. unfold showsEditBanner.
  unfold after, dispatch, handler, beginEditMessage, handleSubmit. unfold_monad.
  rewrite Hrole, Hid. cbn. repeat apply conj.
  - reflexivity.
  - intros Hne. rewrite Hn in *. cbn.
    destruct (n =? 0)%Z eqn:E; [apply Z.eqb_eq in E; congruence|]. now split.
  - intros Hzero. rewrite Hzero. cbn. repeat split.
  - intros Hconfirm. unfold_requests. unfold requests, handleDeleteMessage.
    unfold_monad. rewrite Hid. follow. explore; rewrite map_app; reflexivity.
Qed.

(** X17. The moves on the messages and the composer (edit, cancel, type,
    delete a message, and submit while an edit is in progress or a session
    is active) never change the session list or the active session,
    whatever the server answers. *)
Theorem message_moves_keep_sessions (a : Action) (w : World) :
  message_move (ui w) a = true ->
  let w' := after (handler a) w in
  sessions (ui w') = sessions (ui w) /\
  activeSessionId (ui w') = activeSessionId (ui w).
Proof.
  intros Hmove w'. subst w'. unfold after, dispatch.
  destruct a; cbn in Hmove; try discriminate;
    unfold handler, beginEditMessage, handleDeleteMessage, onChangeChatInput,
      cancelEdit, handleSubmit, saveEditedMessage, sendNewChatMessage,
      fetchMessages; unfold_monad.
  - explore; now split.
  - explore; now split.
  - now split.
  - now split.
  - destruct (truthy (editingId (ui w))) eqn:Hedit; cbn in Hmove.
    + explore; now split.
    + rewrite Hmove. explore; now split.
Qed.

(** X18. The moves on the session list (the listing at mount, creating,
    selecting and deleting a session) never touch the edit pointer nor the
    remembered original text: an edit in progress survives every change of
    session. *)
Theorem session_moves_keep_edit_pointer (a : Action) (w : World) :
  session_move a = true ->
  let w' := after (handler a) w in
  editingId (ui w') = editingId (ui w) /\
  editingOriginalText (ui w') = editingOriginalText (ui w).
Proof.
  intros Hmove w'. subst w'. unfold after, dispatch.
  destruct a; cbn in Hmove; try discriminate;
    unfold handler, fetchSessions, handleCreateNewChat, selectSessionOnClick,
      deleteSessionOnClick, fetchMessages; unfold_monad;
    explore; now split.
Qed.


(** X19. Cancelling undoes the start of an edit without any request, but
    does not bring back what the composer held before: Edit followed by
    Cancel leaves the page as Cancel alone would, with an empty composer,
    and so does typing followed by Cancel. *)
Theorem cancel_forgets_composer (w : World) (m : Message.t) (typed : string) :
  play [ClickEdit m; ClickCancel] w = play [ClickCancel] w /\
  play [ChangeInput typed; ClickCancel] w = play [ClickCancel] w /\
  play [ClickCancel] w =
    mkWorld (with_chatInput ""
               (with_editingOriginalText "" (with_editingId JNull (ui w))))
            (net w) (trace w) (console w).
Proof.
  unfold play, handler, after, dispatch, beginEditMessage, cancelEdit,
    onChangeChatInput. unfold_monad.
  repeat apply conj; try reflexivity.
  destruct (negb (Message.role m =? "user")
            || negb (typeof (Message.id m) =? "number")); reflexivity.
Qed.

Lemma prefix_append (s t : string) : prefix s (s ++ t) = true.
Proof.
  induction s as [|ch s IH].
  - now destruct t.
  - change (String ch s ++ t)%string with (String ch (s ++ t)). cbn [prefix].
    destruct (ascii_dec ch ch); [exact IH | contradiction].
Qed.

(** X20. Every request of every move goes to an address under the base
    URL of the API, which is never empty: the configured one, or the local
    default when none (or an empty one) is configured. *)
Theorem requests_stay_under_base (a : Action) (w : World) :
  API_BASE_URL <> "" /\
  exists events,
    trace (after (handler a) w) = trace w ++ events /\
    Forall (fun ev => prefix API_BASE_URL (url (request ev)) = true) events.
Proof.
  split.
  - unfold API_BASE_URL. destruct NEXT_PUBLIC_API_BASE_URL as [configured|];
      [apply or_else_nonempty|]; discriminate.
  - unfold after, dispatch.
    destruct a; unfold handler, fetchSessions, handleCreateNewChat,
      selectSessionOnClick, deleteSessionOnClick, beginEditMessage,
      handleDeleteMessage, onChangeChatInput, cancelEdit, handleSubmit,
      saveEditedMessage, sendNewChatMessage, fetchMessages; unfold_monad;
      explore; rewrite <- ?app_assoc; cbn [app];
      first [ eexists; split; [reflexivity|]
            | exists []; split; [symmetry; apply app_nil_r|] ];
      repeat constructor; apply prefix_append.
Qed.

(** X21. With a session active, a send of non-blank text creates no
    session: its first request is the chat POST for the active session,
    and the only request that can follow is the GET of that session's
    messages, issued exactly when the chat POST was answered 2xx with a
    JSON body. *)
Theorem send_with_active_session (w : World) (chat : FetchResult) (net1 : Server) :
  whitespace_only (chatInput (ui w)) = false ->
  truthy (activeSessionId (ui w)) = true ->
  serve (chat_request (chatInput (ui w)) (activeSessionId (ui w))) (net w)
    = (chat, net1) ->
  let w' := after sendNewChatMessage w in
  let accepted :=
    match chat with
    | Resolved res =>
        ok res && match json_any (text res) with Json _ => true | _ => false end
    | Rejected _ => false
    end in
  requests w' =
    requests w ++
      chat_request (chatInput (ui w)) (activeSessionId (ui w))
      :: (if accepted then [list_messages_request (activeSessionId (ui w))] else []).
Proof.
  intros Htext Hactive Hchat w' accepted. subst w' accepted. unfold_requests.
  unfold requests, after, dispatch, sendNewChatMessage, fetchMessages.
  unfold_monad. destruct chat as [e | res]; follow.
  - rewrite map_app. reflexivity.
  - destruct (ok res) eqn:Hok; cbn.
    + destruct (json_any (text res)) as [e | []] eqn:Hjson; follow.
      * rewrite map_app. reflexivity.
      * explore; tidy_trace; reflexivity.
    + rewrite map_app. reflexivity.
Qed.

End Extras.

(** ** Concrete runs of the further properties *)

Lemma delete_message_success_witness :
  let w := demo_world (demo_editing "Hello again") [http_no_content] in
  let w' := after (fun _ => handleDeleteMessage (JNum 7)) w in
  history (ui w') = [demo_answer] /\
  editingId (ui w') = JNum 7 /\
  error (ui w') = "".
Proof.
  intros w w'.
  destruct (@delete_message_success demo w (JNum 7) (mkResponse 204 "No Content" "")
              [] eq_refl eq_refl eq_refl (or_intror eq_refl))
    as (_ & Hhistory & _ & _ & _ & Hpointer & Herror & _).
  repeat apply conj; assumption.
Defined.

Lemma delete_message_guards_witness :
  let w := demo_world demo_chatting [http_no_content] in
  dispatch (fun _ => handleDeleteMessage (JStr "7")) w = (Normal tt, w) /\
  @dispatch demo_declining _ (fun _ => handleDeleteMessage (JNum 7))
            (@mkWorld demo_declining demo_chatting [http_no_content] [] [])
    = (Normal tt, @mkWorld demo_declining demo_chatting [http_no_content] [] []).
Proof.
  split.
  - apply (@delete_message_guards demo). left. discriminate.
  - apply (@delete_message_guards demo_declining). right. reflexivity.
Defined.

Lemma delete_message_failure_witness :
  let w := demo_world demo_chatting [http_server_error] in
  let w' := after (fun _ => handleDeleteMessage (JNum 7)) w in
  error (ui w') = "Failed to delete message: 500" /\
  history (ui w') = [demo_question; demo_answer].
Proof.
  intros w w'.
  destruct (@delete_message_failure demo w (JNum 7) http_server_error []
              eq_refl eq_refl eq_refl eq_refl) as (Hui & _ & Hhistory).
  split; [|exact Hhistory]. fold w' in Hui. rewrite Hui. reflexivity.
Defined.

Lemma fetchMessages_contained_witness :
  let w := demo_world demo_chatting [http_server_error] in
  exists w',
    fetchMessages demo_chatting JUndefined w = (Normal tt, w') /\
    loading (ui w') = false /\
    map url (requests w') = ["http://localhost:8000/api/messages/?session=1"].
Proof.
  intros w.
  destruct (@fetchMessages_contained demo demo_chatting JUndefined w)
    as (w' & Hrun & _ & _ & _ & _ & _ & _ & _ & _ & Htruthy).
  destruct (Htruthy eq_refl) as (Hloading & Hrequests).
  exists w'. repeat apply conj; try assumption.
  rewrite Hrequests. reflexivity.
Defined.

Lemma mount_lists_and_selects_witness :
  let w := demo_world initial_state
                      [http_ok "[session 1]"; http_ok "[message 7, message 8]"] in
  let w' := after fetchSessions w in
  sessions (ui w') = [demo_session] /\
  activeSessionId (ui w') = JNum 1 /\
  history (ui w') = [demo_question; demo_answer].
Proof.
  intros w w'.
  destruct (@mount_lists_and_selects demo w (mkResponse 200 "OK" "[session 1]")
              [http_ok "[message 7, message 8]"] [demo_session]
              eq_refl eq_refl eq_refl) as (Hsessions & _ & Hselect).
  destruct (Hselect eq_refl demo_session [] eq_refl) as (Hactive & _ & Hload).
  destruct (Hload eq_refl (http_ok "[message 7, message 8]") [] eq_refl)
    as (_ & Hhistory & _).
  destruct (Hhistory (mkResponse 200 "OK" "[message 7, message 8]")
              [demo_question; demo_answer] eq_refl eq_refl eq_refl) as (Hh & _).
  repeat apply conj; assumption.
Defined.

Lemma select_session_witness :
  let w := demo_world demo_chatting [http_server_error] in
  let w' := after (fun c => selectSessionOnClick c demo_session_2) w in
  activeSessionId (ui w') = JNum 2 /\
  history (ui w') = [demo_question; demo_answer] /\
  error (ui w') <> "".
Proof.
  intros w w'.
  destruct (@select_session demo w demo_session_2)
    as (Hactive & _ & _ & _ & _ & _ & Hload & _).
  destruct (Hload eq_refl http_server_error [] eq_refl) as (_ & _ & Hfailed).
  destruct (Hfailed eq_refl) as (Hhistory & Herror).
  repeat apply conj; assumption.
Defined.

Lemma delete_session_refused_witness :
  let w := demo_world demo_chatting [http_server_error] in
  let w' := after (fun c => deleteSessionOnClick c demo_session) w in
  sessions (ui w') = [demo_session] /\
  error (ui w') = "Failed to delete session: 500 Internal Server Error - boom" /\
  console w' = [["Failed to delete session: 500 Internal Server Error - boom"]].
Proof.
  intros w w'.
  destruct (@delete_session_refused demo w demo_session) as (_ & Hfailure).
  destruct (Hfailure eq_refl http_server_error [] eq_refl eq_refl)
    as (Hui & _ & Hconsole & _).
  fold w' in Hui, Hconsole. rewrite Hui, Hconsole. repeat split.
Defined.

Lemma create_session_failure_witness :
  let w := demo_world demo_chatting [http_server_error] in
  let w' := after (fun _ => handleCreateNewChat) w in
  sessions (ui w') = [demo_session] /\
  activeSessionId (ui w') = JNum 1 /\
  error (ui w') <> "".
Proof.
  intros w w'.
  destruct (@create_session_failure demo w http_server_error []
              eq_refl (or_introl eq_refl)) as (Hui & Herror & _).
  fold w' in Hui, Herror. split; [|split]; [| |exact Herror];
    rewrite Hui; reflexivity.
Defined.

Lemma create_then_delete_session_witness :
  let w := demo_world (demo_typing "Hello") [http_ok "session 2"; http_no_content] in
  let w' := play [ClickNew; ClickDeleteSession demo_session_2] w in
  sessions (ui w') = [demo_session] /\
  activeSessionId (ui w') = JNull /\
  history (ui w') = [] /\
  chatInput (ui w') = "".
Proof.
  intros w.
  refine (@create_then_delete_session demo w (mkResponse 200 "OK" "session 2")
            [http_no_content] demo_session_2 (mkResponse 204 "No Content" "") []
            eq_refl eq_refl eq_refl eq_refl eq_refl (or_intror eq_refl) _).
  repeat constructor. discriminate.
Defined.

Lemma saved_edit_leaves_edit_mode_witness :
  let w := demo_world (demo_editing "Hello again")
                      [http_ok "message 7, edited"; http_ok "regenerated";
                       http_server_error] in
  let w' := after saveEditedMessage w in
  editingId (ui w') = JNull /\ chatInput (ui w') = "" /\
  submitDisabled (ui w') = false.
Proof.
  intros w w'.
  destruct (@saved_edit_leaves_edit_mode demo w
              (mkResponse 200 "OK" "message 7, edited")
              [http_ok "regenerated"; http_server_error] demo_question_edited
              eq_refl eq_refl eq_refl eq_refl eq_refl)
    as (Hpointer & _ & Hinput & _ & Hbutton & _).
  repeat apply conj; assumption.
Defined.

Lemma submit_disabled_while_in_flight_witness :
  let w := demo_world (demo_typing "Hello") [http_ok "reply"; http_server_error] in
  let w' := after handleSubmit w in
  submitDisabled (ui w') = false /\
  exists first later, trace w' = trace w ++ first :: later.
Proof.
  intros w w'.
  destruct (@submit_disabled_while_in_flight demo w eq_refl)
    as ((first & later & Htrace & _) & Hbutton).
  split; [exact Hbutton|]. now exists first, later.
Defined.

Lemma edit_pointer_stays_ok_witness :
  let w := demo_world demo_chatting
                      [http_ok "message 7, edited"; http_server_error;
                       http_ok "session 2"] in
  edit_pointer_ok
    (ui (play [ClickEdit demo_question; ChangeInput "Hello again"; SubmitForm;
               ClickEdit demo_answer; ClickNew] w)).
Proof.
  intros w. apply (@edit_pointer_stays_ok demo). left. reflexivity.
Defined.

Lemma page_stays_idle_witness :
  let w := demo_world demo_chatting
                      [http_ok "message 7, edited"; http_server_error;
                       http_ok "session 2"] in
  idle (ui (play [ClickEdit demo_question; ChangeInput "Hello again"; SubmitForm;
                  ClickDeleteMessage demo_question; ClickNew] w)).
Proof.
  intros w. apply (@page_stays_idle demo). split; reflexivity.
Defined.

Lemma rendered_buttons_pass_guards_witness :
  let w := demo_world demo_chatting [http_no_content] in
  let w' := after (handler (ClickEdit demo_question)) w in
  chatInput (ui w') = "Hello" /\
  showsEditBanner (ui w') = true /\
  map method (requests (after (handler (ClickDeleteMessage demo_question)) w))
    = ["DELETE"].
Proof.
  intros w w'.
  destruct (@rendered_buttons_pass_guards demo w demo_question eq_refl)
    as (Hui & Hnonzero & _ & Hdelete).
  destruct Hnonzero as (Hbanner & _); [discriminate|].
  fold w' in Hui, Hbanner.
  split; [rewrite Hui; reflexivity|].
  split; [exact Hbanner|]. rewrite (Hdelete eq_refl). reflexivity.
Defined.

Lemma message_moves_keep_sessions_witness :
  let w := demo_world (demo_typing "Hello") [http_ok "reply"; http_server_error] in
  let w' := after (handler SubmitForm) w in
  sessions (ui w') = [demo_session] /\ activeSessionId (ui w') = JNum 1.
Proof.
  intros w. exact (@message_moves_keep_sessions demo SubmitForm w eq_refl).
Defined.

Lemma session_moves_keep_edit_pointer_witness :
  let w := demo_world (demo_editing "Hello again") [http_server_error] in
  let w' := after (handler (ClickSession demo_session_2)) w in
  editingId (ui w') = JNum 7 /\ editingOriginalText (ui w') = "Hello".
Proof.
  intros w. exact (@session_moves_keep_edit_pointer demo (ClickSession demo_session_2)
                     w eq_refl).
Defined.

Lemma send_with_active_session_witness :
  let w := demo_world (demo_typing "Hello")
                      [http_ok "reply"; http_ok "[message 7, message 8]"] in
  map (fun r => (method r, url r)) (requests (after sendNewChatMessage w)) =
    [("POST", "http://localhost:8000/api/chat/");
     ("GET", "http://localhost:8000/api/messages/?session=1")].
Proof.
  intros w.
  rewrite (@send_with_active_session demo w (http_ok "reply")
             [http_ok "[message 7, message 8]"] eq_refl eq_refl eq_refl).
  reflexivity.
Defined.
